(** * dohdns: DNS over HTTPS request translation and resolver proxy

    A shallow embedding of the Go package [dohdns]: the GET and POST
    validators of the request translator ([GetRequest.Handle],
    [PostRequest.Handle], [HandleRequest]) and the resolver proxy
    ([NewProxy], [ProxyBackend.Query]), together with the parts of the Go
    standard library their behaviour depends on ([encoding/base64],
    [net/http]'s [Error], [StatusText] and [MaxBytesReader], [io/ioutil]'s
    [ReadAll], [net.JoinHostPort]).

    Mutable objects are threaded explicitly: a handler takes the response
    writer and the backend and gives their new values next to the way the
    call ends: the error it returns to the dispatcher, or a panic. *)

From Stdlib Require Import ZArith Lia List.
From Stdlib Require Import Strings.Byte Strings.Ascii Strings.String.
From stdpp Require Import base option list gmap strings pretty.

Local Open Scope string_scope.
Local Open Scope Z_scope.
Local Open Scope list_scope.

(** ** Go values *)

(** A Go slice is either [nil] or a (possibly empty) sequence:
    [s == nil] distinguishes the two, [len] does not. *)
Definition slice (A : Type) : Type := option (list A).

Definition elems {A} (s : slice A) : list A :=
  match s with
  | Some l => l
  | None => []
  end.

(** [uint8(z)]: conversion of an integer to a byte keeps the low 8 bits. *)
Definition byte_of_Z (z : Z) : byte :=
  match Byte.of_N (Z.to_N (z mod 256)) with
  | Some b => b
  | None => x00
  end.

Definition Z_of_byte (b : byte) : Z := Z.of_N (Byte.to_N b).

(** Decimal rendering of a non-negative integer, as [%d] prints it. *)
Definition itoa (z : Z) : string := pretty (Z.to_N z).

(** Values of Go's [error] interface that occur in the package: [io.EOF],
    errors made by [errors.New] and [fmt.Errorf], and base64's
    [CorruptInputError]. *)
Inductive error : Type :=
| EOF
| errorString (s : string)
| CorruptInputError (pos : Z).

(** The [Error()] method. *)
Definition Error (e : error) : string :=
  match e with
  | EOF => "EOF"
  | errorString s => s
  | CorruptInputError pos => "illegal base64 data at input byte " +:+ itoa pos
  end.

(** A call either returns or panics (an index out of range, a status code
    that is not valid). *)
Inductive outcome (A : Type) : Type :=
| Returns (a : A)
| Panics (msg : string).
Arguments Returns {A} _.
Arguments Panics {A} _.

(** ** encoding/base64: [RawURLEncoding] *)

Module base64.

Definition encodeURL : string :=
  "ABCDEFGHIJKLMNOPQRSTUVWXYZabcdefghijklmnopqrstuvwxyz0123456789-_".

(** [enc.encode[i]] *)
Definition encode_at (i : Z) : ascii :=
  nth (Z.to_nat i) (list_ascii_of_string encodeURL) "000"%char.

Fixpoint index_from (c : ascii) (l : list ascii) (i : Z) : option Z :=
  match l with
  | [] => None
  | x :: l' => if Ascii.eqb c x then Some i else index_from c l' (i + 1)
  end.

(** [enc.decodeMap[c]]; [None] stands for the entry [0xFF]. *)
Definition decodeMap (c : ascii) : option Z :=
  index_from c (list_ascii_of_string encodeURL) 0.

(** The three characters of a full quantum or of the remaining block. *)
Definition val3 (b0 b1 b2 : byte) : Z :=
  Z.lor (Z.lor (Z.shiftl (Z_of_byte b0) 16) (Z.shiftl (Z_of_byte b1) 8))
        (Z_of_byte b2).

Definition sextet (val : Z) (sh : Z) : ascii :=
  encode_at (Z.land (Z.shiftr val sh) 63).

(** [Encode] without padding: three bytes give four characters, a
    remaining block of two gives three and of one gives two. *)
Fixpoint Encode (src : list byte) : list ascii :=
  match src with
  | b0 :: b1 :: b2 :: rest =>
      let val := val3 b0 b1 b2 in
      sextet val 18 :: sextet val 12 :: sextet val 6 :: sextet val 0
             :: Encode rest
  | [b0; b1] =>
      let val := Z.lor (Z.shiftl (Z_of_byte b0) 16) (Z.shiftl (Z_of_byte b1) 8) in
      [sextet val 18; sextet val 12; sextet val 6]
  | [b0] =>
      let val := Z.shiftl (Z_of_byte b0) 16 in
      [sextet val 18; sextet val 12]
  | [] => []
  end.

Definition EncodeToString (src : list byte) : string :=
  string_of_list_ascii (Encode src).

(** The value of a quantum of 6-bit digits (missing digits are zero). *)
Definition quantum_val (dbuf : list Z) : Z :=
  Z.lor (Z.lor (Z.lor (Z.shiftl (nth 0 dbuf 0) 18) (Z.shiftl (nth 1 dbuf 0) 12))
               (Z.shiftl (nth 2 dbuf 0) 6))
        (nth 3 dbuf 0).

(** The bytes a quantum of [dlen] digits contributes: [dlen - 1] of them. *)
Definition quantum (dbuf : list Z) : list byte :=
  let val := quantum_val dbuf in
  take (Nat.pred (length dbuf))
       [byte_of_Z (Z.shiftr val 16); byte_of_Z (Z.shiftr val 8); byte_of_Z val].

Definition is_newline (c : ascii) : bool :=
  Ascii.eqb c "010"%char || Ascii.eqb c "013"%char.

(** The decoding loop. [si] is the index of the next input byte, [dbuf]
    the digits of the quantum being read, [dst] the output so far.
    Newlines and carriage returns are skipped; any other byte outside the
    alphabet (the padding character included) is corrupt input; a single
    trailing digit is corrupt input. *)
Fixpoint decode (src : list ascii) (si : Z) (dbuf : list Z) (dst : list byte)
  : list byte * option error :=
  match src with
  | [] =>
      match dbuf with
      | [] => (dst, None)
      | [_] => (dst, Some (CorruptInputError (si - 1)))
      | _ => (dst ++ quantum dbuf, None)
      end
  | c :: src' =>
      match decodeMap c with
      | Some out =>
          match dbuf with
          | [d0; d1; d2] => decode src' (si + 1) [] (dst ++ quantum [d0; d1; d2; out])
          | _ => decode src' (si + 1) (dbuf ++ [out]) dst
          end
      | None =>
          if is_newline c then decode src' (si + 1) dbuf dst
          else (dst, Some (CorruptInputError si))
      end
  end.

(** [DecodeString]: the bytes decoded before any error, and the error. *)
Definition DecodeString (s : string) : list byte * option error :=
  decode (list_ascii_of_string s) 0 [] [].

End base64.

(** ** net/http: headers, status texts, the response writer *)

(** [http.Header] is [map[string][]string]. The keys the package uses
    ("Content-Type", "X-Content-Type-Options") are already in canonical
    form, so canonicalisation is the identity on them. *)
Abbreviation Header := (gmap string (list string)).

Definition Header_Set (key value : string) (h : Header) : Header :=
  <[key := [value]]> h.

Definition Header_Get (key : string) (h : Header) : string :=
  match h !! key with
  | Some (v :: _) => v
  | _ => EmptyString
  end.

Definition MethodGet : string := "GET".
Definition MethodPost : string := "POST".

Definition StatusOK : Z := 200.
Definition StatusBadRequest : Z := 400.
Definition StatusMethodNotAllowed : Z := 405.
Definition StatusRequestEntityTooLarge : Z := 413.
Definition StatusUnsupportedMediaType : Z := 415.
Definition StatusUnprocessableEntity : Z := 422.
Definition StatusInternalServerError : Z := 500.

Definition statusText : list (Z * string) :=
  [ (100, "Continue"); (101, "Switching Protocols"); (102, "Processing");
    (200, "OK"); (201, "Created"); (202, "Accepted");
    (203, "Non-Authoritative Information"); (204, "No Content");
    (205, "Reset Content"); (206, "Partial Content"); (207, "Multi-Status");
    (208, "Already Reported"); (226, "IM Used");
    (300, "Multiple Choices"); (301, "Moved Permanently"); (302, "Found");
    (303, "See Other"); (304, "Not Modified"); (305, "Use Proxy");
    (307, "Temporary Redirect"); (308, "Permanent Redirect");
    (400, "Bad Request"); (401, "Unauthorized"); (402, "Payment Required");
    (403, "Forbidden"); (404, "Not Found"); (405, "Method Not Allowed");
    (406, "Not Acceptable"); (407, "Proxy Authentication Required");
    (408, "Request Timeout"); (409, "Conflict"); (410, "Gone");
    (411, "Length Required"); (412, "Precondition Failed");
    (413, "Request Entity Too Large"); (414, "Request URI Too Long");
    (415, "Unsupported Media Type"); (416, "Requested Range Not Satisfiable");
    (417, "Expectation Failed"); (418, "I'm a teapot");
    (422, "Unprocessable Entity"); (423, "Locked"); (424, "Failed Dependency");
    (426, "Upgrade Required"); (428, "Precondition Required");
    (429, "Too Many Requests"); (431, "Request Header Fields Too Large");
    (451, "Unavailable For Legal Reasons");
    (500, "Internal Server Error"); (501, "Not Implemented");
    (502, "Bad Gateway"); (503, "Service Unavailable");
    (504, "Gateway Timeout"); (505, "HTTP Version Not Supported");
    (506, "Variant Also Negotiates"); (507, "Insufficient Storage");
    (508, "Loop Detected"); (510, "Not Extended");
    (511, "Network Authentication Required") ].

(** [http.StatusText]: the empty string for an unknown code. *)
Definition StatusText (code : Z) : string :=
  match find (fun p => Z.eqb (fst p) code) statusText with
  | Some p => snd p
  | None => EmptyString
  end.

(** The response writer, after [httptest.ResponseRecorder]: the header map
    the handler mutates, the status code ([200] until one is written), the
    body written so far, and the snapshot of the headers taken when the
    status line is written. *)
Record ResponseRecorder : Type := mkRecorder {
  HeaderMap : Header;
  Code : Z;
  wroteHeader : bool;
  snapHeader : option Header;
  Body : list byte
}.

Definition NewRecorder : ResponseRecorder :=
  {| HeaderMap := ∅; Code := 200; wroteHeader := false;
     snapHeader := None; Body := [] |}.

(** [w.Header().Set(key, value)] *)
Definition W_Header_Set (key value : string) (w : ResponseRecorder) : ResponseRecorder :=
  {| HeaderMap := Header_Set key value (HeaderMap w); Code := Code w;
     wroteHeader := wroteHeader w; snapHeader := snapHeader w; Body := Body w |}.

(** [checkWriteHeaderCode] accepts the status codes of three digits. *)
Definition validStatus (code : Z) : bool := (100 <=? code) && (code <=? 999).

(** [w.WriteHeader(code)]: only the first call counts; that call panics on
    a status code that is not valid, and then nothing is written. *)
Definition WriteHeader (code : Z) (w : ResponseRecorder) : outcome ResponseRecorder :=
  if wroteHeader w then Returns w
  else if validStatus code then
    Returns {| HeaderMap := HeaderMap w; Code := code; wroteHeader := true;
               snapHeader := Some (HeaderMap w); Body := Body w |}
  else Panics ("invalid WriteHeader code " +:+ pretty code).

(** [w.Write(buf)]: an implicit [WriteHeader(200)], which passes the check
    of the code, then the bytes. (The recorder also guesses a Content-Type
    when none is set; both handlers set one before they write.) *)
Definition Write (buf : list byte) (w : ResponseRecorder) : ResponseRecorder :=
  match WriteHeader 200 w with
  | Returns w =>
      {| HeaderMap := HeaderMap w; Code := Code w; wroteHeader := wroteHeader w;
         snapHeader := snapHeader w; Body := Body w ++ buf |}
  | Panics _ => w
  end.

(** [http.Error(w, error, code)]: replaces the Content-Type, writes the
    status and the message followed by a newline. The result is the
    response writer afterwards and, when [WriteHeader] panics, the message
    of the panic: the headers are then set and nothing is written. *)
Definition http_Error (w : ResponseRecorder) (error : string) (code : Z)
  : ResponseRecorder * option string :=
  let w := W_Header_Set "Content-Type" "text/plain; charset=utf-8" w in
  let w := W_Header_Set "X-Content-Type-Options" "nosniff" w in
  match WriteHeader code w with
  | Panics msg => (w, Some msg)
  | Returns w =>
      (Write (list_byte_of_string (error +:+ String "010"%char EmptyString)) w, None)
  end.

(** What the client receives ([Result()]): status, headers as they were
    when the status line was written, body. *)
Record Response : Type := mkResponse {
  StatusCode : Z;
  RespHeader : Header;
  RespBody : list byte
}.

Definition Result (w : ResponseRecorder) : Response :=
  {| StatusCode := Code w;
     RespHeader := default (HeaderMap w) (snapHeader w);
     RespBody := Body w |}.

(** ** io: readers, [http.MaxBytesReader], [ioutil.ReadAll] *)

(** [r.Read(p)] with [len(p) = plen]: the bytes read, the error, and the
    reader afterwards. *)
Class Reader (R : Type) : Type :=
  Read : R -> nat -> (list byte * option error) * R.

(** A request body as a stream: it delivers [pending] in order, as much as
    fits the buffer at each read, and then reports [final] ([EOF] at a
    regular end, another error when the transport fails). *)
Record scriptReader : Type := mkScript {
  pending : list byte;
  final : error
}.

#[export] Instance scriptReader_Reader : Reader scriptReader :=
  fun r plen =>
    match pending r with
    | [] => (([], Some (final r)), r)
    | _ => ((take plen (pending r), None),
            {| pending := drop plen (pending r); final := final r |})
    end.

Definition errTooLarge : error := errorString "http: request body too large".

(** [http.maxBytesReader]: [mbr_n] bytes remain before the limit. *)
Record maxBytesReader (R : Type) : Type := mkMaxBytes {
  mbr_r : R;
  mbr_n : Z;
  mbr_err : option error
}.
Arguments mkMaxBytes {R} _ _ _.
Arguments mbr_r {R} _.
Arguments mbr_n {R} _.
Arguments mbr_err {R} _.

Definition MaxBytesReader {R} (r : R) (n : Z) : maxBytesReader R :=
  mkMaxBytes r n None.

(** [maxBytesReader.Read]: asks the underlying reader for at most
    [mbr_n + 1] bytes; reading more than [mbr_n] is the error
    "http: request body too large", which is then sticky. *)
#[export] Instance maxBytesReader_Reader {R} `{Reader R} : Reader (maxBytesReader R) :=
  fun l plen =>
    match mbr_err l with
    | Some e => (([], Some e), l)
    | None =>
        if Nat.eqb plen 0 then (([], None), l)
        else
          let plen := if Z.of_nat plen >? mbr_n l + 1
                      then Z.to_nat (mbr_n l + 1) else plen in
          let '((chunk, err), r') := Read (mbr_r l) plen in
          let n := Z.of_nat (length chunk) in
          if n <=? mbr_n l
          then ((chunk, err), mkMaxBytes r' (mbr_n l - n) err)
          else ((take (Z.to_nat (mbr_n l)) chunk, Some errTooLarge),
                mkMaxBytes r' 0 (Some errTooLarge))
    end.

(** [bytes.MinRead], the room [ReadFrom] offers at each read. *)
Definition MinRead : nat := 512.

(** [bytes.Buffer.ReadFrom]: read until an error; [EOF] ends the loop
    without being reported. [None] when [fuel] reads did not reach the
    end of the stream. *)
Fixpoint ReadFrom {R} `{Reader R} (fuel : nat) (r : R) (buf : list byte)
  : option (list byte * option error) :=
  match fuel with
  | O => None
  | S fuel' =>
      let '((chunk, e), r') := Read r MinRead in
      let buf := buf ++ chunk in
      match e with
      | Some EOF => Some (buf, None)
      | Some e => Some (buf, Some e)
      | None => ReadFrom fuel' r' buf
      end
  end.

(** [ioutil.ReadAll] *)
Definition ReadAll {R} `{Reader R} (fuel : nat) (r : R)
  : option (list byte * option error) :=
  ReadFrom fuel r [].

(** ** net/url and the request *)

(** [url.Values.Add]: the value is appended to the values of the key. *)
Definition Values_Add (m : gmap string (list string)) (key value : string)
  : gmap string (list string) :=
  <[key := default [] (m !! key) ++ [value]]> m.

(** [r.URL.Query()]: the map built from the key/value pairs of the query
    string, taken in the order in which they occur. *)
Definition URL_Query (pairs : list (string * string)) : gmap string (list string) :=
  fold_left (fun m kv => Values_Add m (fst kv) (snd kv)) pairs ∅.

(** [*http.Request], as far as the handlers read it. [RawQuery] holds the
    unescaped key/value pairs of the URL's query string. *)
Record http_Request : Type := mkHttpRequest {
  Method : string;
  RawQuery : list (string * string);
  ReqHeader : Header;
  ReqBody : scriptReader;
  RemoteAddr : string
}.

(** ** Package dohdns: the request translator *)

Definition mime : string := "application/dns-udpwireformat".

(** [Database] is the interface used by the query handlers to look up
    results. A backend may keep state, so [Query] returns the backend as it
    is after the call. *)
Class Database (D : Type) : Type :=
  Query : D -> list byte -> (slice byte * Z * option error) * D.

(** [Request] is passed from the generic request handler to the more
    specific handler. *)
Record Request (D : Type) : Type := mkRequest {
  W : ResponseRecorder;
  R : http_Request;
  DB : D
}.
Arguments mkRequest {D} _ _ _.
Arguments W {D} _.
Arguments R {D} _.
Arguments DB {D} _.

Definition set_W {D} (req : Request D) (w : ResponseRecorder) : Request D :=
  mkRequest w (R req) (DB req).

Definition set_DB {D} (req : Request D) (db : D) : Request D :=
  mkRequest (W req) (R req) db.

(** How a call of a handler ends: it returns its error (or nil), or it
    panics. *)
Inductive ending : Type :=
| Returned (err : option error)
| Panicked (msg : string).

(** The statements [http.Error(req.W, http.StatusText(code), code)] and
    [return err] that end every failure: the handler returns [err] unless
    writing the status panicked. *)
Definition fail {D} (req : Request D) (code : Z) (err : error) : Request D * ending :=
  let '(w, panic) := http_Error (W req) (StatusText code) code in
  (set_W req w,
   match panic with
   | Some msg => Panicked msg
   | None => Returned (Some err)
   end).

(** The common last step of both handlers (the same statements end
    [GetRequest.Handle] and [PostRequest.Handle]): hand the query to the
    backend, answer with its status on an error and with its bytes
    otherwise. *)
Definition query_backend {D} `{Database D} (req : Request D) (qdata : list byte)
  : Request D * ending :=
  let '((rdata, httpStatus, err), db) := Query (DB req) qdata in
  let req := set_DB req db in
  match err with
  | Some e => fail req httpStatus e
  | None => (set_W req (Write (elems rdata) (W req)), Returned None)
  end.

(** [GetRequest.Handle] does the necessary validation of a GET request and
    hands the query to a backend. It gives the request with its response
    writer and backend as they are afterwards, and how the call ends. *)
Definition GetRequest_Handle {D} `{Database D} (req : Request D)
  : Request D * ending :=
  let req := set_W req (W_Header_Set "Content-Type" mime (W req)) in
  match URL_Query (RawQuery (R req)) !! "dns" with
  | Some dns =>
      if negb (Nat.eqb (length dns) 1) then
        fail req StatusUnprocessableEntity
             (errorString (MethodGet +:+ ": only 1 'dns' parameter is allowed"))
      else
        let dns0 := nth 0 dns EmptyString in
        if Nat.eqb (String.length dns0) 0 then
          fail req StatusBadRequest
               (errorString (MethodGet +:+ ": 'dns' parameter is empty"))
        else
          match base64.DecodeString dns0 with
          | (_, Some err) => fail req StatusBadRequest err
          | (qdata, None) => query_backend req qdata
          end
  | None =>
      fail req StatusBadRequest
           (errorString (MethodGet +:+ ": no 'dns' parameter in request"))
  end.

(** The limit on the body size. *)
Definition maxBody : Z := 8192.

(** [PostRequest.Handle] does the necessary validation of a POST request
    and hands the query to a backend. [None] when [fuel] reads did not
    reach the end of the body. *)
Definition PostRequest_Handle {D} `{Database D} (fuel : nat) (req : Request D)
  : option (Request D * ending) :=
  let req := set_W req (W_Header_Set "Content-Type" mime (W req)) in
  match URL_Query (RawQuery (R req)) !! "dns" with
  | Some _ =>
      Some (fail req StatusBadRequest
                 (errorString (MethodPost +:+ ": 'dns' parameter not allowed")))
  | None =>
      if negb (String.eqb (Header_Get "Content-Type" (ReqHeader (R req))) mime) then
        Some (fail req StatusUnsupportedMediaType
                   (errorString (MethodPost +:+ ": Content-Type must be " +:+ mime)))
      else
        match ReadAll fuel (MaxBytesReader (ReqBody (R req)) maxBody) with
        | None => None
        | Some (body, Some err) =>
            if String.eqb (Error err) "http: request body too large" then
              Some (fail req StatusRequestEntityTooLarge err)
            else
              Some (fail req StatusInternalServerError err)
        | Some (body, None) =>
            if Nat.eqb (length body) 0 then
              Some (fail req StatusBadRequest
                         (errorString (MethodPost +:+ ": empty body in request")))
            else Some (query_backend req body)
        end
  end.

(** [log.Printf] on an optional logger: one line more when there is one. *)
Definition Printf (log : option (list string)) (line : string) : option (list string) :=
  match log with
  | Some lines => Some (lines ++ [line])
  | None => None
  end.

(** [HandleRequest] is a simple help wrapper around the GET and POST
    handlers: the handler it returns, applied to a response writer and a
    request. The result is the response writer, the backend and the log
    afterwards, and the message of the panic when the call panicked: a
    panic of the GET or POST handler leaves the wrapper before it logs. *)
Definition HandleRequest {D} `{Database D} (database : D) (log : option (list string))
  (fuel : nat) (w : ResponseRecorder) (r : http_Request)
  : option (ResponseRecorder * D * option (list string) * option string) :=
  let handled :=
    if String.eqb (Method r) MethodGet then
      Some (GetRequest_Handle (mkRequest w r database))
    else if String.eqb (Method r) MethodPost then
      PostRequest_Handle fuel (mkRequest w r database)
    else
      Some (fail (mkRequest w r database) StatusMethodNotAllowed
                 (errorString ("HandleRequest: only " +:+ MethodGet +:+ " and "
                               +:+ MethodPost +:+ " methods are supported")))
  in
  match handled with
  | None => None
  | Some (req, Panicked msg) => Some (W req, DB req, log, Some msg)
  | Some (req, Returned err) =>
      let log :=
        match err with
        | Some e => Printf log (RemoteAddr r +:+ " | " +:+ Error e)
        | None => Printf log (RemoteAddr r +:+ " | successful " +:+ Method r +:+ " request")
        end in
      Some (W req, DB req, log, None)
  end.

(** ** Package dohdns: the resolver proxy *)

(** [net.JoinHostPort]: a host with a colon is taken for a literal IPv6
    address and put in brackets. *)
Definition JoinHostPort (host port : string) : string :=
  if existsb (Ascii.eqb ":"%char) (list_ascii_of_string host)
  then "[" +:+ host +:+ "]:" +:+ port
  else host +:+ ":" +:+ port.

(** [dns.ClientConfig], the parsed resolver configuration. *)
Record ClientConfig : Type := mkClientConfig {
  cc_Servers : slice string;
  cc_Search : slice string;
  cc_Port : string;
  cc_Ndots : Z;
  cc_Timeout : Z;
  cc_Attempts : Z
}.

(** We use an [Exchanger] interface to be able to return a custom
    [dns.Msg] from [Exchange]: reply and round-trip time, or an error, and
    the exchanger as it is after the call. *)
Class Exchanger (Msg E : Type) : Type :=
  Exchange : E -> Msg -> string -> ((Msg * Z) + error) * E.

(** [ProxyBackend] passes on queries to a recursive DNS resolver. *)
Record ProxyBackend (E : Type) : Type := mkProxyBackend {
  Servers : slice string;
  Port : string;
  ResolvConf : string;
  pbExchanger : E
}.
Arguments mkProxyBackend {E} _ _ _ _.
Arguments Servers {E} _.
Arguments Port {E} _.
Arguments ResolvConf {E} _.
Arguments pbExchanger {E} _.

(** An exchanger that also keeps the list of the calls made to it. *)
Record Traced (Msg E : Type) : Type := mkTraced {
  inner : E;
  calls : list (Msg * string)
}.
Arguments mkTraced {Msg E} _ _.
Arguments inner {Msg E} _.
Arguments calls {Msg E} _.

#[export] Instance Traced_Exchanger {Msg E} `{Exchanger Msg E} : Exchanger Msg (Traced Msg E) :=
  fun t m address =>
    let '(res, c) := Exchange (inner t) m address in
    (res, mkTraced c (calls t ++ [(m, address)])).

Section Proxy.

(** The collaborators: the DNS wire-format codec of [dns.Msg], the
    reader of the resolver configuration file and the standard client
    [new(dns.Client)]. *)
Context {Msg E : Type} `{Exchanger Msg E}.
Variable Unpack : list byte -> Msg + error.
Variable Pack : Msg -> list byte + error.
Variable ClientConfigFromFile : string -> ClientConfig + error.
Variable new_dns_Client : E.

(** [NewProxy] returns a new [ProxyBackend] instance. [servers == nil]
    and [exchanger == nil] are [None]. *)
Definition NewProxy (servers : slice string) (port resolvconf : string)
  (exchanger : option E) : ProxyBackend E + error :=
  let resolvconf :=
    if String.eqb resolvconf EmptyString then "/etc/resolv.conf" else resolvconf in
  let read :=
    match servers with
    | None =>
        match ClientConfigFromFile resolvconf with
        | inr err => inr err
        | inl config => inl (cc_Servers config)
        end
    | Some _ => inl servers
    end in
  match read with
  | inr err => inr err
  | inl servers =>
      let port := if String.eqb port EmptyString then "53" else port in
      let exchanger :=
        match exchanger with
        | None => new_dns_Client
        | Some e => e
        end in
      inl (mkProxyBackend servers port EmptyString exchanger)
  end.

(** [ProxyBackend.Query] expects to send a request to a recursive DNS
    resolver. The result is what the call returns (or its panic) and the
    backend with its exchanger as it is afterwards. *)
Definition ProxyBackend_Query (pb : ProxyBackend E) (qdata : list byte)
  : outcome (slice byte * Z * option error) * ProxyBackend E :=
  let c := pbExchanger pb in
  match Unpack qdata with
  | inr err => (Returns (None, StatusBadRequest, Some err), pb)
  | inl m =>
      match elems (Servers pb) !! 0%nat with
      | None => (Panics "runtime error: index out of range", pb)
      | Some server =>
          let '(res, c) := Exchange c m (JoinHostPort server (Port pb)) in
          let pb := mkProxyBackend (Servers pb) (Port pb) (ResolvConf pb) c in
          match res with
          | inr err => (Returns (None, StatusInternalServerError, Some err), pb)
          | inl (r, _) =>
              match Pack r with
              | inr err => (Returns (None, StatusInternalServerError, Some err), pb)
              | inl rdata => (Returns (Some rdata, StatusOK, None), pb)
              end
          end
      end
  end.

End Proxy.

(** ** Definitions used to state the properties *)

(** The values given to [key] in a query string, in order. *)
Fixpoint values_of (key : string) (pairs : list (string * string)) : list string :=
  match pairs with
  | [] => []
  | (k, v) :: pairs' =>
      if String.eqb k key then v :: values_of key pairs' else values_of key pairs'
  end.

(** What [ReadAll] reports when the stream ends with [e]: the regular end
    [EOF] is not an error. *)
Definition reported (e : error) : option error :=
  match e with
  | EOF => None
  | _ => Some e
  end.

(** Enough fuel to read any body under the limit of 8192 bytes. *)
Definition enough (fuel : nat) : Prop := maxBody < Z.of_nat fuel.

(** A backend wrapped so that it keeps the list of the queries it
    received. *)
Record Recorded (D : Type) : Type := mkRecorded {
  backend : D;
  received : list (list byte)
}.
Arguments mkRecorded {D} _ _.
Arguments backend {D} _.
Arguments received {D} _.

#[export] Instance Recorded_Database {D} `{Database D} : Database (Recorded D) :=
  fun d qdata =>
    let '(res, b) := Query (backend d) qdata in
    (res, mkRecorded b (received d ++ [qdata])).

(** A backend that answers every query with the query itself. *)
Inductive echoDB : Type := Echo.

#[export] Instance echoDB_Database : Database echoDB :=
  fun d qdata => ((Some qdata, StatusOK, None), d).

(** A backend that fails every query with a fixed status. *)
Record failingDB : Type := mkFailing { failStatus : Z }.

#[export] Instance failingDB_Database : Database failingDB :=
  fun d qdata => ((None, failStatus d, Some (errorString "backend failure")), d).

(** The Content-Type header of the response. *)
Definition contentType (w : ResponseRecorder) : string :=
  Header_Get "Content-Type" (RespHeader (Result w)).

(** The request as both handlers have it once they have set the
    Content-Type of the response. *)
Definition started {D} (r : http_Request) (db : D) : Request D :=
  mkRequest (W_Header_Set "Content-Type" mime NewRecorder) r db.

(** The status code of the response a handler leaves behind. *)
Definition status {D} (res : Request D * ending) : Z :=
  StatusCode (Result (W (fst res))).

(** Requests used as examples. *)
Definition get_request (query : list (string * string)) : http_Request :=
  mkHttpRequest MethodGet query ∅ (mkScript [] EOF) "192.0.2.7:4711".

Definition post_request (query : list (string * string)) (ctype : string)
  (body : list byte) : http_Request :=
  mkHttpRequest MethodPost query (Header_Set "Content-Type" ctype ∅)
                (mkScript body EOF) "192.0.2.7:4711".

(** The Content-Type the response writer holds, by the way the handler
    ends: that of the DNS wire format only when it returns no error. *)
Definition contentType_for (e : ending) : string :=
  match e with
  | Returned None => mime
  | _ => "text/plain; charset=utf-8"
  end.

(** A POST request whose body cannot be read, as the tests' [errReader]. *)
Definition unreadable_post_request : http_Request :=
  mkHttpRequest MethodPost [] (Header_Set "Content-Type" mime ∅)
                (mkScript [] (errorString "test error")) "192.0.2.7:4711".

(** A body of [n] zero bytes, as the tests' [make([]byte, 8193)]. *)
Definition zeros (n : Z) : list byte := repeat x00 (Z.to_nat n).

(** The handler answers with the outcome [out] of the backend: on an error
    with a status from 100 to 999, with that status, the error going to the
    dispatcher; on an error with another status it panics when it writes
    the status; without an error, with status 200 and the returned bytes
    as the whole body. *)
Definition answers {D} (res : Request D * ending)
  (out : slice byte * Z * option error) : Prop :=
  match out with
  | (_, httpStatus, Some e) =>
      (100 <= httpStatus <= 999 ->
       status res = httpStatus /\ snd res = Returned (Some e))
      /\ (~ 100 <= httpStatus <= 999 ->
          snd res = Panicked ("invalid WriteHeader code " +:+ pretty httpStatus))
  | (rdata, _, None) =>
      status res = 200 /\ RespBody (Result (W (fst res))) = elems rdata
      /\ snd res = Returned None
  end.

(** Collaborators used as examples: a codec on raw bytes that refuses
    messages shorter than a DNS header and replies it cannot pack, a
    resolver configuration that names one server, and an exchanger that
    gives a fixed answer. *)
Definition shortUnpack (qdata : list byte) : list byte + error :=
  if Nat.ltb (length qdata) 12 then inr (errorString "dns: overflow unpacking uint16")
  else inl qdata.

Definition strictPack (m : list byte) : list byte + error :=
  if Nat.ltb (length m) 12 then inr (errorString "dns: bad rdata") else inl m.

Definition oneServerConfig (path : string) : ClientConfig + error :=
  if String.eqb path "/etc/resolv.conf"
  then inl (mkClientConfig (Some ["192.0.2.53"]) None "53" 1 5 2)
  else inr (errorString ("open " +:+ path +:+ ": no such file or directory")).

Record fixedExchanger : Type := mkFixed {
  fixed_answer : (list byte * Z) + error
}.

#[export] Instance fixedExchanger_Exchanger : Exchanger (list byte) fixedExchanger :=
  fun c m address => (fixed_answer c, c).

(** Twelve zero bytes: an empty DNS message, header only. *)
Definition header12 : list byte := repeat x00 12.

(** A backend with the given servers whose exchanger gives [answer]. *)
Definition proxy_of (servers : list string) (answer : (list byte * Z) + error)
  : ProxyBackend fixedExchanger :=
  mkProxyBackend (Some servers) "53535" EmptyString (mkFixed answer).

(** A backend with two servers whose exchanger keeps the calls made. *)
Definition traced_proxy (answer : (list byte * Z) + error)
  : ProxyBackend (Traced (list byte) fixedExchanger) :=
  mkProxyBackend (Some ["127.0.0.1"; "127.0.0.2"]) "53535" EmptyString
                 (mkTraced (mkFixed answer) []).

(** The query for www.example.com (A) of the package's tests. *)
Definition www_example_com : list byte :=
  [x00; x00; x01; x00; x00; x01; x00; x00; x00; x00; x00; x00;
   x03; x77; x77; x77; x07; x65; x78; x61; x6d; x70; x6c; x65;
   x03; x63; x6f; x6d; x00; x00; x01; x00; x01].

(** The same query with an EDNS0 OPT record whose padding option fills the
    message up to 8193 bytes: the header counts one additional record; the
    record has the root name, type 41, a payload size of 4096, no flags,
    8149 bytes of data: option 12 (padding) with 8145 zero bytes. *)
Definition padded_query : list byte :=
  [x00; x00; x01; x00; x00; x01; x00; x00; x00; x00; x00; x01;
   x03; x77; x77; x77; x07; x65; x78; x61; x6d; x70; x6c; x65;
   x03; x63; x6f; x6d; x00; x00; x01; x00; x01]
  ++ [x00; x00; x29; x10; x00; x00; x00; x00; x00; x1f; xd5]
  ++ [x00; x0c; x1f; xd1] ++ zeros 8145.

(** The response to a request, with a backend that echoes the query. *)
Definition response_of (r : http_Request) : option Response :=
  match HandleRequest Echo None (Z.to_nat 8193) NewRecorder r with
  | Some (w, _, _, None) => Some (Result w)
  | _ => None
  end.

(** A failure response: the status, the headers [http.Error] sets and the
    message. *)
Definition text_response (code : Z) (body : string) : option Response :=
  Some {| StatusCode := code;
          RespHeader := Header_Set "X-Content-Type-Options" "nosniff"
                          (Header_Set "Content-Type" "text/plain; charset=utf-8" ∅);
          RespBody := list_byte_of_string body |}.

Definition newline : string := String "010"%char EmptyString.

(** ** The earlier revision of the resolver proxy

    The file of the proxy also holds its earlier revision, without the
    [Exchanger] interface: the backend has no exchanger field, [NewProxy]
    takes three arguments and [Query] makes a [new(dns.Client)] at each
    call. *)

Module previous.

Record ProxyBackend : Type := mkProxyBackend {
  Servers : slice string;
  Port : string;
  ResolvConf : string
}.

Section Proxy.

Context {Msg E : Type} `{Exchanger Msg E}.
Variable Unpack : list byte -> Msg + error.
Variable Pack : Msg -> list byte + error.
Variable ClientConfigFromFile : string -> ClientConfig + error.
Variable new_dns_Client : E.

(** [NewProxy] returns a new [ProxyBackend] instance. *)
Definition NewProxy (servers : slice string) (port resolvconf : string)
  : ProxyBackend + error :=
  let resolvconf :=
    if String.eqb resolvconf EmptyString then "/etc/resolv.conf" else resolvconf in
  let read :=
    match servers with
    | None =>
        match ClientConfigFromFile resolvconf with
        | inr err => inr err
        | inl config => inl (cc_Servers config)
        end
    | Some _ => inl servers
    end in
  match read with
  | inr err => inr err
  | inl servers =>
      let port := if String.eqb port EmptyString then "53" else port in
      inl (mkProxyBackend servers port EmptyString)
  end.

(** [ProxyBackend.Query] expects to send a request to a recursive DNS
    resolver, through a client made for the call. *)
Definition ProxyBackend_Query (pb : ProxyBackend) (qdata : list byte)
  : outcome (slice byte * Z * option error) :=
  let c := new_dns_Client in
  match Unpack qdata with
  | inr err => Returns (None, StatusBadRequest, Some err)
  | inl m =>
      match elems (Servers pb) !! 0%nat with
      | None => Panics "runtime error: index out of range"
      | Some server =>
          let '(res, _) := Exchange c m (JoinHostPort server (Port pb)) in
          match res with
          | inr err => Returns (None, StatusInternalServerError, Some err)
          | inl (r, _) =>
              match Pack r with
              | inr err => Returns (None, StatusInternalServerError, Some err)
              | inl rdata => Returns (Some rdata, StatusOK, None)
              end
          end
      end
  end.

End Proxy.

End previous.

(** ** More definitions used to state properties *)

(** The body [http.Error] writes for a status: its reason phrase and a
    newline. *)
Definition failure_body (code : Z) : list byte :=
  list_byte_of_string (StatusText code +:+ newline).

(** A failure response: the reason phrase of its status as the body, as
    plain text that is not to be sniffed. *)
Definition failure_response (w : ResponseRecorder) : Prop :=
  RespBody (Result w) = failure_body (StatusCode (Result w))
  /\ contentType w = "text/plain; charset=utf-8"
  /\ Header_Get "X-Content-Type-Options" (RespHeader (Result w)) = "nosniff".

(** A byte the decoder refuses: outside the alphabet and not a line end. *)
Definition corrupt (c : ascii) : Prop :=
  base64.decodeMap c = None /\ base64.is_newline c = false.

(** A resolver configuration that names two servers and another port. *)
Definition twoServerConfig (path : string) : ClientConfig + error :=
  inl (mkClientConfig (Some ["192.0.2.53"; "192.0.2.54"]) None "5353" 1 5 2).

(** * Properties *)

Example decode_AAAB : base64.DecodeString "AAAB" = ([x00; x00; x01], None).
Proof. reflexivity. Qed.

Example decode_bang : base64.DecodeString "!" = ([], Some (CorruptInputError 0)).
Proof. reflexivity. Qed.

Example encode_www : base64.EncodeToString [x03; x77; x77; x77; x07] = "A3d3dwc".
Proof. reflexivity. Qed.

Example decode_www : base64.DecodeString "A3d3dwc" = ([x03; x77; x77; x77; x07], None).
Proof. reflexivity. Qed.

Example decode_invalid : fst (base64.DecodeString "invalid") = [x8a; x7b; xda; x96; x27].
Proof. reflexivity. Qed.

Example ReadAll_small :
  ReadAll 3 (MaxBytesReader (mkScript [x01; x02] EOF) 8192) = Some ([x01; x02], None).
Proof. reflexivity. Qed.

Example ReadAll_limit :
  ReadAll 3 (MaxBytesReader (mkScript [x01; x02; x03] EOF) 2)
  = Some ([x01; x02], Some errTooLarge).
Proof. reflexivity. Qed.

Example ReadAll_errReader :
  ReadAll 1 (MaxBytesReader (mkScript [] (errorString "test error")) 8192)
  = Some ([], Some (errorString "test error")).
Proof. reflexivity. Qed.

(** The cases of the package's request tests that do not need a
    resolver. *)
Example test_GET_no_dns_parameter :
  response_of (get_request []) = text_response 400 ("Bad Request" +:+ newline).
Proof. vm_compute. reflexivity. Qed.

Example test_GET_empty_dns_parameter :
  response_of (get_request [("dns", EmptyString)]) = text_response 400 ("Bad Request" +:+ newline).
Proof. vm_compute. reflexivity. Qed.

Example test_GET_multiple_dns_parameters :
  response_of (get_request [("dns", "AAABAAABAAAAAAAAA3d3dwdleGFtcGxlA2NvbQAAAQAB");
                            ("dns", "AAABAAABAAAAAAAAA3d3dwdleGFtcGxlA2NvbQAAAQAB")])
  = text_response 422 ("Unprocessable Entity" +:+ newline).
Proof. vm_compute. reflexivity. Qed.

Example test_GET_unparseable_base64url :
  response_of (get_request [("dns", "!")]) = text_response 400 ("Bad Request" +:+ newline).
Proof. vm_compute. reflexivity. Qed.

Example test_POST_wrong_Content_Type :
  response_of (mkHttpRequest MethodPost [] ∅ (mkScript [] EOF) "192.0.2.7:4711")
  = text_response 415 ("Unsupported Media Type" +:+ newline).
Proof. vm_compute. reflexivity. Qed.

Example test_POST_no_body :
  response_of (post_request [] mime []) = text_response 400 ("Bad Request" +:+ newline).
Proof. vm_compute. reflexivity. Qed.

Example test_POST_misplaced_dns_parameter :
  response_of (post_request [("dns", EmptyString)] mime www_example_com)
  = text_response 400 ("Bad Request" +:+ newline).
Proof. vm_compute. reflexivity. Qed.

Example test_POST_too_large_body :
  response_of (post_request [] mime (zeros 8193))
  = text_response 413 ("Request Entity Too Large" +:+ newline).
Proof. vm_compute. reflexivity. Qed.

Example test_POST_unreadable_body :
  response_of unreadable_post_request
  = text_response 500 ("Internal Server Error" +:+ newline).
Proof. vm_compute. reflexivity. Qed.

Example test_PUT :
  response_of (mkHttpRequest "PUT" [] ∅ (mkScript [] EOF) "192.0.2.7:4711")
  = text_response 405 ("Method Not Allowed" +:+ newline).
Proof. vm_compute. reflexivity. Qed.

Example test_POST_valid_query :
  response_of (post_request [] mime www_example_com)
  = Some {| StatusCode := 200; RespHeader := Header_Set "Content-Type" mime ∅;
            RespBody := www_example_com |}.
Proof. vm_compute. reflexivity. Qed.

(** ** The query map *)

Lemma fold_Values_Add_lookup (key : string) (pairs : list (string * string))
  (m : gmap string (list string)) :
  fold_left (fun m kv => Values_Add m (fst kv) (snd kv)) pairs m !! key
  = match m !! key, values_of key pairs with
    | None, [] => None
    | o, vs => Some (default [] o ++ vs)
    end.
Proof.
  revert m. induction pairs as [|[k v] pairs IH]; intros m; simpl.
  - destruct (m !! key); simpl; [by rewrite app_nil_r | done].
  - rewrite IH. unfold Values_Add. simpl.
    destruct (String.eqb_spec k key) as [->|Hne].
    + rewrite lookup_insert_eq. simpl.
      destruct (m !! key); simpl; [by rewrite <- app_assoc | done].
    + rewrite lookup_insert_ne by done. done.
Qed.

(** A key is in the query map exactly when the query string gives it a
    value, and then it is mapped to all its values. *)
Lemma URL_Query_lookup (key : string) (pairs : list (string * string)) :
  URL_Query pairs !! key
  = match values_of key pairs with
    | [] => None
    | vs => Some vs
    end.
Proof.
  unfold URL_Query. rewrite fold_Values_Add_lookup, lookup_empty. done.
Qed.

(** ** Reading a body under the limit *)

Lemma ReadFrom_fits (fuel : nat) :
  forall (data buf : list byte) (fin : error) (n : Z),
    Z.of_nat (length data) <= n ->
    (length data < fuel)%nat ->
    ReadFrom fuel (mkMaxBytes (mkScript data fin) n None) buf
    = Some (buf ++ data, reported fin).
Proof.
  induction fuel as [|fuel IH]; intros data buf fin n Hn Hfuel; [lia|].
  destruct data as [|b data].
  - simpl in *. unfold Read, maxBytesReader_Reader, Read, scriptReader_Reader. simpl.
    destruct (Z.leb_spec (Z.of_nat 0) n) as [_|?]; [|lia].
    by destruct fin.
  - cbn [ReadFrom]. unfold Read at 1. unfold maxBytesReader_Reader.
    cbn [mbr_err mbr_n mbr_r]. change (Nat.eqb MinRead 0) with false. cbv iota.
    set (plen := if Z.of_nat MinRead >? n + 1 then Z.to_nat (n + 1) else MinRead).
    assert (Hplen : (1 <= plen)%nat).
    { subst plen. simpl length in Hn. unfold MinRead.
      destruct (Z.gtb_spec (Z.of_nat 512) (n + 1)); lia. }
    unfold Read, scriptReader_Reader. cbn [pending final].
    set (chunk := take plen (b :: data)).
    assert (Hlen : length chunk = Nat.min plen (length (b :: data)))
      by (subst chunk; apply length_take).
    destruct (Z.leb_spec (Z.of_nat (length chunk)) n) as [_|?]; [|lia].
    rewrite IH.
    + subst chunk. by rewrite <- app_assoc, take_drop.
    + rewrite length_drop. lia.
    + rewrite length_drop. simpl length in *. lia.
Qed.

Lemma ReadFrom_over (fuel : nat) :
  forall (data buf : list byte) (fin : error) (n : Z),
    0 <= n < Z.of_nat (length data) ->
    n < Z.of_nat fuel ->
    ReadFrom fuel (mkMaxBytes (mkScript data fin) n None) buf
    = Some (buf ++ take (Z.to_nat n) data, Some errTooLarge).
Proof.
  induction fuel as [|fuel IH]; intros data buf fin n Hn Hfuel; [lia|].
  destruct data as [|b data]; [simpl in Hn; lia|].
  cbn [ReadFrom]. unfold Read at 1. unfold maxBytesReader_Reader.
  cbn [mbr_err mbr_n mbr_r]. change (Nat.eqb MinRead 0) with false. cbv iota.
  set (plen := if Z.of_nat MinRead >? n + 1 then Z.to_nat (n + 1) else MinRead).
  assert (Hplen : (1 <= plen)%nat /\ Z.of_nat plen <= n + 1).
  { subst plen. unfold MinRead.
    destruct (Z.gtb_spec (Z.of_nat 512) (n + 1)); lia. }
  unfold Read, scriptReader_Reader. cbn [pending final].
  set (chunk := take plen (b :: data)).
  assert (Hlen : length chunk = plen).
  { subst chunk. rewrite length_take. clearbody plen. lia. }
  clearbody plen.
  destruct (Z.leb_spec (Z.of_nat (length chunk)) n) as [Hle|Hgt].
  - rewrite IH.
    + rewrite Hlen. subst chunk. rewrite <- app_assoc, take_take_drop.
      replace (plen + Z.to_nat (n - Z.of_nat plen))%nat with (Z.to_nat n) by lia.
      done.
    + rewrite length_drop. lia.
    + lia.
  - (* the last read: one byte more than the limit allows *)
    subst chunk. rewrite take_take.
    replace (Nat.min (Z.to_nat n) plen) with (Z.to_nat n) by lia. done.
Qed.

(** [ReadAll] under the limit: the whole body when it has at most 8192
    bytes and ends regularly, the transport's error when it fails within
    the limit, and the body-too-large error as soon as a byte more than the
    limit is read. *)
Lemma ReadAll_MaxBytesReader (fuel : nat) (body : scriptReader) :
  enough fuel ->
  ReadAll fuel (MaxBytesReader body maxBody)
  = if Z.of_nat (length (pending body)) <=? maxBody
    then Some (pending body, reported (final body))
    else Some (take (Z.to_nat maxBody) (pending body), Some errTooLarge).
Proof.
  unfold enough, ReadAll, MaxBytesReader. intros Hfuel. destruct body as [data fin].
  cbn [pending final].
  destruct (Z.leb_spec (Z.of_nat (length data)) maxBody).
  - rewrite ReadFrom_fits; [done | done | lia].
  - rewrite ReadFrom_over; [done | unfold maxBody in *; lia | done].
Qed.

(** ** Base64: decoding what was encoded *)

Lemma Z_of_byte_range (b : byte) : 0 <= Z_of_byte b < 256.
Proof. unfold Z_of_byte. pose proof (Byte.to_N_bounded b). lia. Qed.

Lemma byte_of_Z_mod (z : Z) (b : byte) :
  z mod 256 = Z_of_byte b -> byte_of_Z z = b.
Proof.
  intros Hz. unfold byte_of_Z. rewrite Hz. unfold Z_of_byte.
  by rewrite N2Z.id, Byte.of_to_N.
Qed.

(** Or-ing a value into bits that are all zero adds it. *)
Lemma lor_low_bits (a b k : Z) :
  0 <= k -> a mod 2 ^ k = 0 -> 0 <= b < 2 ^ k -> Z.lor a b = a + b.
Proof.
  intros Hk Ha Hb.
  assert (Hland : Z.land a b = 0).
  { apply Z.bits_inj'. intros n Hn. rewrite Z.land_spec, Z.bits_0.
    destruct (Z.lt_ge_cases n k) as [Hlt|Hge].
    - rewrite (Z.div_mod a (2 ^ k)) by lia. rewrite Ha, Z.add_0_r.
      rewrite Z.mul_comm, Z.mul_pow2_bits_low by lia. done.
    - rewrite <- (Z.mod_small b (2 ^ k)) by lia.
      rewrite Z.mod_pow2_bits_high by lia. apply andb_false_r. }
  rewrite <- (Z.lxor_lor a b) by done. symmetry. by apply Z.add_nocarry_lxor.
Qed.

Module base64_facts.
Import base64.

Lemma digit_range (x : Z) : 0 <= Z.land x 63 < 64.
Proof.
  change 63 with (Z.ones 6). rewrite Z.land_ones by lia.
  apply Z.mod_pos_bound. lia.
Qed.

Lemma decodeMap_encode_at (i : Z) : 0 <= i < 64 -> decodeMap (encode_at i) = Some i.
Proof.
  intros Hi. rewrite <- (Z2Nat.id i) by lia.
  assert (Hn : (Z.to_nat i < 64)%nat) by lia.
  generalize dependent (Z.to_nat i). clear i Hi. intros n Hn.
  do 64 (destruct n as [|n]; [reflexivity|]). lia.
Qed.

Lemma decodeMap_sextet (val sh : Z) :
  decodeMap (sextet val sh) = Some (Z.land (Z.shiftr val sh) 63).
Proof. apply decodeMap_encode_at, digit_range. Qed.

(** The four digits of a 24-bit value put together give the value. *)
Lemma quantum_val_digits (v : Z) :
  0 <= v < 2 ^ 24 ->
  quantum_val [Z.land (Z.shiftr v 18) 63; Z.land (Z.shiftr v 12) 63;
               Z.land (Z.shiftr v 6) 63; Z.land (Z.shiftr v 0) 63] = v.
Proof.
  intros Hv. unfold quantum_val. cbn [nth].
  change 63 with (Z.ones 6). rewrite !Z.land_ones by lia.
  rewrite !Z.shiftr_div_pow2, !Z.shiftl_mul_pow2 by lia.
  change (2 ^ 24) with 16777216 in Hv.
  change (2 ^ 18) with 262144. change (2 ^ 12) with 4096.
  change (2 ^ 6) with 64. change (2 ^ 0) with 1.
  set (s0 := (v / 262144) mod 64). set (s1 := (v / 4096) mod 64).
  set (s2 := (v / 64) mod 64). set (s3 := (v / 1) mod 64).
  assert (Hs : 0 <= s0 < 64 /\ 0 <= s1 < 64 /\ 0 <= s2 < 64 /\ 0 <= s3 < 64
               /\ v = s0 * 262144 + s1 * 4096 + s2 * 64 + s3).
  { subst s0 s1 s2 s3. Z.div_mod_to_equations. lia. }
  clearbody s0 s1 s2 s3.
  rewrite (lor_low_bits (s0 * 262144) (s1 * 4096) 18);
    [|lia|change (2 ^ 18) with 262144; Z.div_mod_to_equations; lia
     |change (2 ^ 18) with 262144; lia].
  rewrite (lor_low_bits (s0 * 262144 + s1 * 4096) (s2 * 64) 12);
    [|lia|change (2 ^ 12) with 4096; Z.div_mod_to_equations; lia
     |change (2 ^ 12) with 4096; lia].
  rewrite (lor_low_bits (s0 * 262144 + s1 * 4096 + s2 * 64) s3 6);
    [|lia|change (2 ^ 6) with 64; Z.div_mod_to_equations; lia
     |change (2 ^ 6) with 64; lia].
  lia.
Qed.

Lemma quantum_val_3 (v : Z) :
  0 <= v < 2 ^ 24 -> v mod 64 = 0 ->
  quantum_val [Z.land (Z.shiftr v 18) 63; Z.land (Z.shiftr v 12) 63;
               Z.land (Z.shiftr v 6) 63] = v.
Proof.
  intros Hv H0. rewrite <- (quantum_val_digits v Hv) at 4.
  unfold quantum_val. cbn [nth]. do 2 f_equal.
  change 63 with (Z.ones 6). rewrite Z.land_ones, Z.shiftr_0_r by lia.
  change (2 ^ 6) with 64. lia.
Qed.

Lemma quantum_val_2 (v : Z) :
  0 <= v < 2 ^ 24 -> v mod 4096 = 0 ->
  quantum_val [Z.land (Z.shiftr v 18) 63; Z.land (Z.shiftr v 12) 63] = v.
Proof.
  intros Hv H0.
  assert (H64 : v mod 64 = 0) by (Z.div_mod_to_equations; lia).
  rewrite <- (quantum_val_3 v Hv H64) at 3.
  unfold quantum_val. cbn [nth]. do 2 f_equal.
  change 63 with (Z.ones 6). rewrite Z.land_ones, Z.shiftr_div_pow2 by lia.
  change (2 ^ 6) with 64. f_equal. Z.div_mod_to_equations. lia.
Qed.

(** The value of three bytes, arithmetically. *)
Lemma val3_sum (b0 b1 b2 : byte) :
  val3 b0 b1 b2 = Z_of_byte b0 * 65536 + Z_of_byte b1 * 256 + Z_of_byte b2.
Proof.
  pose proof (Z_of_byte_range b0). pose proof (Z_of_byte_range b1).
  pose proof (Z_of_byte_range b2).
  unfold val3. rewrite !Z.shiftl_mul_pow2 by lia.
  change (2 ^ 16) with 65536. change (2 ^ 8) with 256.
  rewrite (lor_low_bits (Z_of_byte b0 * 65536) (Z_of_byte b1 * 256) 16);
    [|lia|change (2 ^ 16) with 65536; Z.div_mod_to_equations; lia
     |change (2 ^ 16) with 65536; lia].
  rewrite (lor_low_bits (Z_of_byte b0 * 65536 + Z_of_byte b1 * 256) (Z_of_byte b2) 8);
    [|lia|change (2 ^ 8) with 256; Z.div_mod_to_equations; lia
     |change (2 ^ 8) with 256; lia].
  done.
Qed.

Lemma val2_sum (b0 b1 : byte) :
  Z.lor (Z.shiftl (Z_of_byte b0) 16) (Z.shiftl (Z_of_byte b1) 8)
  = Z_of_byte b0 * 65536 + Z_of_byte b1 * 256.
Proof.
  pose proof (Z_of_byte_range b0). pose proof (Z_of_byte_range b1).
  rewrite !Z.shiftl_mul_pow2 by lia.
  change (2 ^ 16) with 65536. change (2 ^ 8) with 256.
  rewrite (lor_low_bits (Z_of_byte b0 * 65536) (Z_of_byte b1 * 256) 16);
    [|lia|change (2 ^ 16) with 65536; Z.div_mod_to_equations; lia
     |change (2 ^ 16) with 65536; lia].
  done.
Qed.

Lemma bytes_of_sum (B0 B1 B2 : byte) :
  let v := Z_of_byte B0 * 65536 + Z_of_byte B1 * 256 + Z_of_byte B2 in
  byte_of_Z (Z.shiftr v 16) = B0 /\ byte_of_Z (Z.shiftr v 8) = B1
  /\ byte_of_Z v = B2.
Proof.
  pose proof (Z_of_byte_range B0). pose proof (Z_of_byte_range B1).
  pose proof (Z_of_byte_range B2). intros v. subst v.
  rewrite !Z.shiftr_div_pow2 by lia.
  change (2 ^ 16) with 65536. change (2 ^ 8) with 256.
  repeat split; apply byte_of_Z_mod; Z.div_mod_to_equations; lia.
Qed.

Lemma list_ind3 {A} (P : list A -> Prop) :
  P [] -> (forall a, P [a]) -> (forall a b, P [a; b]) ->
  (forall a b c l, P l -> P (a :: b :: c :: l)) ->
  forall l, P l.
Proof.
  intros H0 H1 H2 H3 l.
  enough (P l /\ (forall a, P (a :: l)) /\ (forall a b, P (a :: b :: l))) by tauto.
  induction l as [|x l (IH0 & IH1 & IH2)]; [by auto|].
  split; [apply IH1|]. split; [intros a; apply IH2|].
  intros a b. by apply H3.
Qed.

Lemma quantum_of_3 (b0 b1 b2 : byte) :
  let v := val3 b0 b1 b2 in
  quantum [Z.land (Z.shiftr v 18) 63; Z.land (Z.shiftr v 12) 63;
           Z.land (Z.shiftr v 6) 63; Z.land (Z.shiftr v 0) 63] = [b0; b1; b2].
Proof.
  pose proof (Z_of_byte_range b0). pose proof (Z_of_byte_range b1).
  pose proof (Z_of_byte_range b2). intros v. unfold quantum.
  rewrite quantum_val_digits by (subst v; rewrite val3_sum; lia).
  subst v. rewrite val3_sum. cbn [length Nat.pred take].
  destruct (bytes_of_sum b0 b1 b2) as (-> & -> & ->). done.
Qed.

Lemma quantum_of_2 (b0 b1 : byte) :
  let v := Z.lor (Z.shiftl (Z_of_byte b0) 16) (Z.shiftl (Z_of_byte b1) 8) in
  quantum [Z.land (Z.shiftr v 18) 63; Z.land (Z.shiftr v 12) 63;
           Z.land (Z.shiftr v 6) 63] = [b0; b1].
Proof.
  pose proof (Z_of_byte_range b0). pose proof (Z_of_byte_range b1).
  intros v. unfold quantum.
  assert (Hv : v = Z_of_byte b0 * 65536 + Z_of_byte b1 * 256 + Z_of_byte x00)
    by (subst v; rewrite val2_sum; change (Z_of_byte x00) with 0; lia).
  rewrite quantum_val_3;
    [|rewrite Hv; change (Z_of_byte x00) with 0; lia
     |rewrite Hv; change (Z_of_byte x00) with 0; Z.div_mod_to_equations; lia].
  rewrite Hv. cbn [length Nat.pred take].
  destruct (bytes_of_sum b0 b1 x00) as (-> & -> & _). done.
Qed.

Lemma quantum_of_1 (b0 : byte) :
  let v := Z.shiftl (Z_of_byte b0) 16 in
  quantum [Z.land (Z.shiftr v 18) 63; Z.land (Z.shiftr v 12) 63] = [b0].
Proof.
  pose proof (Z_of_byte_range b0). intros v. unfold quantum.
  assert (Hv : v = Z_of_byte b0 * 65536 + Z_of_byte x00 * 256 + Z_of_byte x00).
  { subst v. rewrite Z.shiftl_mul_pow2 by lia.
    change (Z_of_byte x00) with 0. change (2 ^ 16) with 65536. lia. }
  rewrite quantum_val_2;
    [|rewrite Hv; change (Z_of_byte x00) with 0; lia
     |rewrite Hv; change (Z_of_byte x00) with 0; Z.div_mod_to_equations; lia].
  rewrite Hv. cbn [length Nat.pred take].
  destruct (bytes_of_sum b0 x00 x00) as (-> & _ & _). done.
Qed.

(** Decoding an encoded byte sequence gives the sequence back, without
    an error. *)
Lemma decode_Encode (src : list byte) :
  forall (si : Z) (dst : list byte),
    decode (Encode src) si [] dst = (dst ++ src, None).
Proof.
  induction src as [|b0|b0 b1|b0 b1 b2 rest IH] using list_ind3; intros si dst.
  - simpl. by rewrite app_nil_r.
  - cbn [Encode decode]. rewrite !decodeMap_sextet. cbn [app decode].
    by rewrite quantum_of_1.
  - cbn [Encode decode]. rewrite !decodeMap_sextet. cbn [app decode].
    by rewrite quantum_of_2.
  - cbn [Encode decode]. rewrite !decodeMap_sextet. cbn [app decode].
    rewrite quantum_of_3, IH. by rewrite <- app_assoc.
Qed.

Lemma DecodeString_EncodeToString (src : list byte) :
  DecodeString (EncodeToString src) = (src, None).
Proof.
  unfold DecodeString, EncodeToString.
  rewrite list_ascii_of_string_of_list_ascii. apply decode_Encode.
Qed.

(** The encoding of a non-empty byte sequence is a non-empty string. *)
Lemma EncodeToString_nonempty (src : list byte) :
  src <> [] -> String.length (EncodeToString src) <> 0%nat.
Proof.
  unfold EncodeToString. destruct src as [|b0 [|b1 [|b2 rest]]]; done.
Qed.

End base64_facts.

(** ** The response writer *)

Lemma validStatus_range (code : Z) : validStatus code = true <-> 100 <= code <= 999.
Proof. unfold validStatus. rewrite andb_true_iff, !Z.leb_le. done. Qed.

Lemma Code_http_Error (w : ResponseRecorder) (msg : string) (code : Z) :
  wroteHeader w = false -> validStatus code = true ->
  Code (fst (http_Error w msg code)) = code.
Proof.
  intros Hw Hcode. unfold http_Error, Write, WriteHeader. simpl.
  by rewrite Hw, Hcode.
Qed.

Lemma contentType_http_Error (w : ResponseRecorder) (msg : string) (code : Z) :
  wroteHeader w = false -> snapHeader w = None ->
  contentType (fst (http_Error w msg code)) = "text/plain; charset=utf-8".
Proof.
  intros Hw Hsnap. unfold contentType, http_Error, Write, WriteHeader, Result. simpl.
  rewrite Hw. destruct (validStatus code); simpl; rewrite ?Hsnap; simpl;
    unfold Header_Get, Header_Set;
    rewrite lookup_insert_ne by done; by rewrite lookup_insert_eq.
Qed.

Lemma Result_Write (w : ResponseRecorder) (buf : list byte) :
  wroteHeader w = false ->
  Result (Write buf w)
  = {| StatusCode := 200; RespHeader := HeaderMap w; RespBody := Body w ++ buf |}.
Proof. intros Hw. unfold Write, WriteHeader, Result. by rewrite Hw. Qed.

Lemma Result_http_Error (w : ResponseRecorder) (msg : string) (code : Z) :
  wroteHeader w = false -> validStatus code = true ->
  Result (fst (http_Error w msg code))
  = {| StatusCode := code;
       RespHeader := Header_Set "X-Content-Type-Options" "nosniff"
                       (Header_Set "Content-Type" "text/plain; charset=utf-8"
                                   (HeaderMap w));
       RespBody := Body w ++ list_byte_of_string (msg +:+ String "010"%char EmptyString) |}.
Proof.
  intros Hw Hcode. unfold http_Error, Write, WriteHeader, Result. simpl.
  by rewrite Hw, Hcode.
Qed.

(** [http.Error] returns when the status code is valid, and panics, on a
    response writer not yet written to, when it is not. *)
Lemma http_Error_returns (w : ResponseRecorder) (msg : string) (code : Z) :
  validStatus code = true -> snd (http_Error w msg code) = None.
Proof.
  intros Hcode. unfold http_Error, WriteHeader. simpl.
  rewrite Hcode. by destruct (wroteHeader w).
Qed.

Lemma http_Error_panics (w : ResponseRecorder) (msg : string) (code : Z) :
  wroteHeader w = false -> validStatus code = false ->
  snd (http_Error w msg code) = Some ("invalid WriteHeader code " +:+ pretty code).
Proof.
  intros Hw Hcode. unfold http_Error, WriteHeader. simpl. by rewrite Hw, Hcode.
Qed.

(** A failure with a valid status code writes the response and returns
    the error. *)
Lemma fail_valid {D} (req : Request D) (code : Z) (err : error) :
  validStatus code = true ->
  fail req code err
  = (set_W req (fst (http_Error (W req) (StatusText code) code)), Returned (Some err)).
Proof.
  intros Hcode. unfold fail.
  pose proof (http_Error_returns (W req) (StatusText code) code Hcode) as Hreturns.
  destruct (http_Error (W req) (StatusText code) code) as [w panic].
  simpl in Hreturns. by subst panic.
Qed.

Lemma fail_fst {D} (req : Request D) (code : Z) (err : error) :
  fst (fail req code err)
  = set_W req (fst (http_Error (W req) (StatusText code) code)).
Proof. unfold fail. by destruct (http_Error (W req) (StatusText code) code). Qed.


(** ** The GET validator *)

Ltac req_simpl :=
  rewrite ?fail_valid by done;
  cbn [fst snd W R DB set_W set_DB Result StatusCode RespHeader RespBody
       length Nat.eqb negb nth String.length].

Ltac error_status :=
  req_simpl; rewrite ?Code_http_Error by done; try done.

(** C1. For every GET request: without a 'dns' parameter the status is
    400; with more than one it is 422, also when the values are empty
    (this check comes before the empty-value check); with exactly one,
    empty, it is 400; with exactly one, non-empty, that fails to decode as
    unpadded base64url it is 400 and the decode error is returned to the
    dispatcher. *)
Theorem GetRequest_Handle_dns_parameter {D} `{Database D} (r : http_Request) (db : D) :
  let dns := values_of "dns" (RawQuery r) in
  let res := GetRequest_Handle (mkRequest NewRecorder r db) in
  (dns = [] -> status res = 400) /\
  ((2 <= length dns)%nat -> status res = 422) /\
  (dns = [EmptyString; EmptyString] -> status res = 422) /\
  (dns = [EmptyString] -> status res = 400) /\
  (forall v e, dns = [v] -> v <> EmptyString -> snd (base64.DecodeString v) = Some e ->
               status res = 400 /\ snd res = Returned (Some e)).
Proof.
  intros dns res. subst res. unfold GetRequest_Handle, status.
  cbn [R W set_W]. rewrite URL_Query_lookup. fold dns.
  split; [|split; [|split; [|split]]].
  - intros ->. error_status.
  - intros Hlen. destruct dns as [|v [|v' dns']]; [simpl in Hlen; lia..|].
    error_status.
  - intros ->. error_status.
  - intros ->. error_status.
  - intros v e -> Hv He. req_simpl.
    destruct v as [|c v]; [done|]. req_simpl.
    destruct (base64.DecodeString (String c v)) as [qdata [e'|]]; [|done].
    simpl in He. injection He as ->. split; [error_status | done].
Qed.

Lemma GetRequest_Handle_dns_parameter_witness :
  status (GetRequest_Handle (mkRequest NewRecorder (get_request []) Echo)) = 400
  /\ status (GetRequest_Handle
               (mkRequest NewRecorder (get_request [("dns", "AAAB"); ("dns", "AAAB")]) Echo))
     = 422
  /\ status (GetRequest_Handle
               (mkRequest NewRecorder (get_request [("dns", EmptyString); ("dns", EmptyString)]) Echo)) = 422
  /\ status (GetRequest_Handle (mkRequest NewRecorder (get_request [("dns", EmptyString)]) Echo))
     = 400
  /\ (status (GetRequest_Handle (mkRequest NewRecorder (get_request [("dns", "!")]) Echo))
      = 400
      /\ snd (GetRequest_Handle (mkRequest NewRecorder (get_request [("dns", "!")]) Echo))
         = Returned (Some (CorruptInputError 0))).
Proof.
  split; [|split; [|split; [|split]]].
  - destruct (GetRequest_Handle_dns_parameter (get_request []) Echo)
      as (Habsent & _).
    apply Habsent. reflexivity.
  - destruct (GetRequest_Handle_dns_parameter
                (get_request [("dns", "AAAB"); ("dns", "AAAB")]) Echo)
      as (_ & Hmany & _).
    apply Hmany. simpl. lia.
  - destruct (GetRequest_Handle_dns_parameter
                (get_request [("dns", EmptyString); ("dns", EmptyString)]) Echo)
      as (_ & _ & Hempties & _).
    apply Hempties. reflexivity.
  - destruct (GetRequest_Handle_dns_parameter (get_request [("dns", EmptyString)]) Echo)
      as (_ & _ & _ & Hempty & _).
    apply Hempty. reflexivity.
  - destruct (GetRequest_Handle_dns_parameter (get_request [("dns", "!")]) Echo)
      as (_ & _ & _ & _ & Hcorrupt).
    apply (Hcorrupt "!").
    + reflexivity.
    + discriminate.
    + reflexivity.
Defined.

(** ** The Content-Type of the response *)

Lemma contentType_Write (w : ResponseRecorder) (value : string) (buf : list byte) :
  wroteHeader w = false ->
  contentType (Write buf (W_Header_Set "Content-Type" value w)) = value.
Proof.
  intros Hw. unfold contentType. rewrite Result_Write by done.
  cbn. unfold Header_Get, Header_Set. by rewrite lookup_insert_eq.
Qed.

Lemma fail_contentType {D} (req : Request D) (code : Z) (err : error) :
  wroteHeader (W req) = false -> snapHeader (W req) = None ->
  contentType (W (fst (fail req code err))) = contentType_for (snd (fail req code err)).
Proof.
  intros Hw Hsnap. rewrite fail_fst. cbn [W set_W].
  rewrite contentType_http_Error by done.
  unfold fail. by destruct (http_Error (W req) (StatusText code) code) as [w [msg|]].
Qed.

Lemma query_backend_contentType {D} `{Database D} (r : http_Request) (db : D)
  (qdata : list byte) :
  let res := query_backend (started r db) qdata in
  contentType (W (fst res)) = contentType_for (snd res).
Proof.
  unfold query_backend, started. cbn [DB W].
  destruct (Query db qdata) as [[[rdata httpStatus] [e|]] db'].
  - by apply fail_contentType.
  - req_simpl. by rewrite contentType_Write.
Qed.

(** C2, as the code has it. Both validators first set the Content-Type of
    the response to application/dns-udpwireformat; the response carries it
    when the handler reports no error. Every failure response is written by
    [http.Error], which replaces it: the response then carries
    text/plain; charset=utf-8. *)
Theorem Handle_Content_Type {D} `{Database D} (r : http_Request) (db : D) (fuel : nat) :
  enough fuel ->
  (let res := GetRequest_Handle (mkRequest NewRecorder r db) in
   contentType (W (fst res)) = contentType_for (snd res))
  /\ (exists res, PostRequest_Handle fuel (mkRequest NewRecorder r db) = Some res
                  /\ contentType (W (fst res)) = contentType_for (snd res)).
Proof.
  intros Hfuel. split.
  - unfold GetRequest_Handle. cbn [R W set_W]. rewrite URL_Query_lookup.
    destruct (values_of "dns" (RawQuery r)) as [|v [|v' dns]]; req_simpl;
      try by rewrite contentType_http_Error.
    destruct v as [|c v]; req_simpl; [by rewrite contentType_http_Error|].
    destruct (base64.DecodeString (String c v)) as [qdata [e|]]; req_simpl.
    + by rewrite contentType_http_Error.
    + apply (query_backend_contentType r db).
  - unfold PostRequest_Handle. cbn [R W set_W]. rewrite URL_Query_lookup.
    destruct (values_of "dns" (RawQuery r)) as [|v dns].
    2: { eexists. split; [done|]. req_simpl. by rewrite contentType_http_Error. }
    destruct (String.eqb (Header_Get "Content-Type" (ReqHeader r)) mime); cbn [negb].
    2: { eexists. split; [done|]. req_simpl. by rewrite contentType_http_Error. }
    rewrite ReadAll_MaxBytesReader by done.
    destruct (Z.of_nat (length (pending (ReqBody r))) <=? maxBody).
    + destruct (reported (final (ReqBody r))) as [e|].
      * destruct (String.eqb (Error e) "http: request body too large");
          eexists; (split; [done|]); req_simpl; by rewrite contentType_http_Error.
      * destruct (pending (ReqBody r)) as [|b body]; req_simpl.
        -- eexists. split; [done|]. req_simpl. by rewrite contentType_http_Error.
        -- eexists. split; [done|]. apply (query_backend_contentType r db).
    + cbn [Error errTooLarge]. eexists. split; [done|]. req_simpl.
      by rewrite contentType_http_Error.
Qed.

(** C2, as stated, fails: the response to a GET request without a 'dns'
    parameter (status 400) does not carry the DNS wire-format media type. *)
Lemma failure_response_Content_Type :
  contentType (W (fst (GetRequest_Handle (mkRequest NewRecorder (get_request []) Echo))))
  <> mime.
Proof. vm_compute. discriminate. Qed.

Lemma enough_8193 : enough (Z.to_nat 8193).
Proof. unfold enough, maxBody. lia. Defined.

Lemma Handle_Content_Type_witness :
  enough (Z.to_nat 8193)
  /\ contentType (W (fst (GetRequest_Handle
                            (mkRequest NewRecorder (get_request [("dns", "AAAB")]) Echo))))
     = mime
  /\ exists res,
      PostRequest_Handle (Z.to_nat 8193)
        (mkRequest NewRecorder (post_request [] "text/plain" [x00]) Echo) = Some res
      /\ contentType (W (fst res)) = contentType_for (snd res).
Proof.
  split; [exact enough_8193|].
  destruct (Handle_Content_Type (get_request [("dns", "AAAB")]) Echo
              (Z.to_nat 8193) enough_8193) as [Hget _].
  destruct (Handle_Content_Type (post_request [] "text/plain" [x00]) Echo
              (Z.to_nat 8193) enough_8193) as [_ Hpost].
  split; [exact Hget | exact Hpost].
Defined.

(** ** The POST validator *)

(** C3. For every POST request: a 'dns' query parameter, whatever its
    value, gives status 400, also when the Content-Type is wrong (the check
    of the parameter comes first); without the parameter, a Content-Type
    header that is not exactly application/dns-udpwireformat gives status
    415. *)
Theorem PostRequest_Handle_parameter_and_Content_Type {D} `{Database D}
  (fuel : nat) (r : http_Request) (db : D) :
  let res := PostRequest_Handle fuel (mkRequest NewRecorder r db) in
  (values_of "dns" (RawQuery r) <> [] ->
   exists res', res = Some res' /\ status res' = 400)
  /\ (values_of "dns" (RawQuery r) = [] ->
      Header_Get "Content-Type" (ReqHeader r) <> mime ->
      exists res', res = Some res' /\ status res' = 415).
Proof.
  intros res. subst res. unfold PostRequest_Handle, status.
  cbn [R W set_W]. rewrite URL_Query_lookup. split.
  - intros Hdns. destruct (values_of "dns" (RawQuery r)) as [|v dns]; [done|].
    eexists. split; [done|]. error_status.
  - intros -> Hct.
    destruct (String.eqb_spec (Header_Get "Content-Type" (ReqHeader r)) mime) as [|_];
      [done|].
    eexists. split; [done|]. error_status.
Qed.

Lemma PostRequest_Handle_parameter_and_Content_Type_witness :
  (exists res',
      PostRequest_Handle 0
        (mkRequest NewRecorder (post_request [("dns", EmptyString)] "text/plain" [x00]) Echo)
      = Some res' /\ status res' = 400)
  /\ (exists res',
         PostRequest_Handle 0
           (mkRequest NewRecorder (post_request [] "text/plain" [x00]) Echo)
         = Some res' /\ status res' = 415).
Proof.
  split.
  - destruct (PostRequest_Handle_parameter_and_Content_Type 0
                (post_request [("dns", EmptyString)] "text/plain" [x00]) Echo) as [Hdns _].
    apply Hdns. discriminate.
  - destruct (PostRequest_Handle_parameter_and_Content_Type 0
                (post_request [] "text/plain" [x00]) Echo) as [_ Hct].
    apply Hct; [reflexivity|]. vm_compute. discriminate.
Defined.

(** Once the parameter and Content-Type checks are passed, the handler
    reads the body under the limit. *)
Lemma PostRequest_Handle_checked {D} `{Database D} (fuel : nat) (r : http_Request) (db : D) :
  values_of "dns" (RawQuery r) = [] ->
  Header_Get "Content-Type" (ReqHeader r) = mime ->
  PostRequest_Handle fuel (mkRequest NewRecorder r db)
  = match ReadAll fuel (MaxBytesReader (ReqBody r) maxBody) with
    | None => None
    | Some (body, Some err) =>
        Some (fail (started r db)
                (if String.eqb (Error err) "http: request body too large"
                 then StatusRequestEntityTooLarge
                 else StatusInternalServerError)
                err)
    | Some (body, None) =>
        if Nat.eqb (length body) 0 then
          Some (fail (started r db) StatusBadRequest
                  (errorString (MethodPost +:+ ": empty body in request")))
        else Some (query_backend (started r db) body)
    end.
Proof.
  intros Hdns Hct. unfold PostRequest_Handle. cbn [R W set_W].
  rewrite URL_Query_lookup, Hdns, Hct, String.eqb_refl. cbn [negb].
  destruct (ReadAll fuel (MaxBytesReader (ReqBody r) maxBody)) as [[body [err|]]|];
    [|done..].
  by destruct (String.eqb (Error err) "http: request body too large").
Qed.

(** C4. For every POST request that passes the parameter and Content-Type
    checks: a body of exactly 8192 bytes (of 1 to 8192 bytes) passes the
    size check and is handed to the backend; a body of 8193 or more bytes
    gives status 413; a read failure gives 413 when its message is the
    body-too-large one and 500 otherwise; an empty body gives 400. *)
Theorem PostRequest_Handle_body {D} `{Database D} (fuel : nat) (r : http_Request) (db : D) :
  enough fuel ->
  values_of "dns" (RawQuery r) = [] ->
  Header_Get "Content-Type" (ReqHeader r) = mime ->
  let body := pending (ReqBody r) in
  let size := Z.of_nat (length body) in
  let res := PostRequest_Handle fuel (mkRequest NewRecorder r db) in
  (size = 8192 -> final (ReqBody r) = EOF ->
   res = Some (query_backend (started r db) body))
  /\ (0 < size <= 8192 -> final (ReqBody r) = EOF ->
      res = Some (query_backend (started r db) body))
  /\ (8193 <= size ->
      exists res', res = Some res' /\ status res' = 413
                   /\ snd res' = Returned (Some errTooLarge))
  /\ (size <= 8192 -> final (ReqBody r) <> EOF ->
      Error (final (ReqBody r)) <> "http: request body too large" ->
      exists res', res = Some res' /\ status res' = 500
                   /\ snd res' = Returned (Some (final (ReqBody r))))
  /\ (size <= 8192 -> final (ReqBody r) <> EOF ->
      Error (final (ReqBody r)) = "http: request body too large" ->
      exists res', res = Some res' /\ status res' = 413
                   /\ snd res' = Returned (Some (final (ReqBody r))))
  /\ (size = 0 -> final (ReqBody r) = EOF ->
      exists res', res = Some res' /\ status res' = 400).
Proof.
  intros Hfuel Hdns Hct body size res. subst res.
  rewrite PostRequest_Handle_checked, ReadAll_MaxBytesReader by done.
  fold body. fold size. unfold maxBody, status.
  assert (Hgeneral : 0 < size <= 8192 -> final (ReqBody r) = EOF ->
            (if size <=? 8192
             then Some (body, reported (final (ReqBody r)))
             else Some (take (Z.to_nat 8192) body, Some errTooLarge))
            = Some (body, None) /\ Nat.eqb (length body) 0 = false).
  { intros Hsize ->. destruct (Z.leb_spec size 8192); [|lia].
    split; [done|]. apply Nat.eqb_neq. lia. }
  split; [|split; [|split; [|split; [|split]]]].
  - intros Hsize Hfin. destruct Hgeneral as [-> ->]; [lia|done|done].
  - intros Hsize Hfin. destruct Hgeneral as [-> ->]; done.
  - intros Hsize. destruct (Z.leb_spec size 8192); [lia|].
    cbn [Error errTooLarge String.eqb Ascii.eqb Bool.eqb].
    eexists. split; [done|]. split; [error_status | done].
  - intros Hsize Hfin Hmsg. destruct (Z.leb_spec size 8192); [|lia].
    assert (reported (final (ReqBody r)) = Some (final (ReqBody r))) as ->
      by (by destruct (final (ReqBody r))).
    apply String.eqb_neq in Hmsg. rewrite Hmsg.
    eexists. split; [done|]. split; [error_status | done].
  - intros Hsize Hfin Hmsg. destruct (Z.leb_spec size 8192); [|lia].
    assert (reported (final (ReqBody r)) = Some (final (ReqBody r))) as ->
      by (by destruct (final (ReqBody r))).
    rewrite Hmsg, String.eqb_refl.
    eexists. split; [done|]. split; [error_status | done].
  - intros Hsize ->. destruct (Z.leb_spec size 8192); [|lia].
    assert (body = []) as -> by (apply length_zero_iff_nil; lia).
    cbn [reported length Nat.eqb]. eexists. split; [done|]. error_status.
Qed.

Lemma PostRequest_Handle_body_witness :
  PostRequest_Handle (Z.to_nat 8193)
    (mkRequest NewRecorder (post_request [] mime (zeros 8192)) Echo)
  = Some (query_backend (started (post_request [] mime (zeros 8192)) Echo) (zeros 8192))
  /\ (exists res',
         PostRequest_Handle (Z.to_nat 8193)
           (mkRequest NewRecorder (post_request [] mime (zeros 8193)) Echo) = Some res'
         /\ status res' = 413 /\ snd res' = Returned (Some errTooLarge))
  /\ (exists res',
         PostRequest_Handle (Z.to_nat 8193)
           (mkRequest NewRecorder unreadable_post_request Echo) = Some res'
         /\ status res' = 500
         /\ snd res' = Returned (Some (errorString "test error")))
  /\ (exists res',
         PostRequest_Handle (Z.to_nat 8193)
           (mkRequest NewRecorder (post_request [] mime []) Echo) = Some res'
         /\ status res' = 400).
Proof.
  split; [|split; [|split]].
  - destruct (PostRequest_Handle_body (Z.to_nat 8193)
                (post_request [] mime (zeros 8192)) Echo enough_8193 eq_refl eq_refl)
      as (Hexact & _).
    apply Hexact; [vm_compute; reflexivity | reflexivity].
  - destruct (PostRequest_Handle_body (Z.to_nat 8193)
                (post_request [] mime (zeros 8193)) Echo enough_8193 eq_refl eq_refl)
      as (_ & _ & Hlarge & _).
    apply Hlarge. vm_compute. discriminate.
  - destruct (PostRequest_Handle_body (Z.to_nat 8193)
                unreadable_post_request Echo enough_8193 eq_refl eq_refl)
      as (_ & _ & _ & Hfail & _).
    apply Hfail; [vm_compute; discriminate | discriminate | discriminate].
  - destruct (PostRequest_Handle_body (Z.to_nat 8193)
                (post_request [] mime []) Echo enough_8193 eq_refl eq_refl)
      as (_ & _ & _ & _ & _ & Hempty).
    apply Hempty; reflexivity.
Defined.

(** ** The outcome of the backend *)

(** A failure with a status code that is not valid panics, on a response
    writer not yet written to. *)
Lemma fail_invalid {D} (req : Request D) (code : Z) (err : error) :
  wroteHeader (W req) = false -> validStatus code = false ->
  snd (fail req code err) = Panicked ("invalid WriteHeader code " +:+ pretty code).
Proof.
  intros Hw Hcode. unfold fail.
  pose proof (http_Error_panics (W req) (StatusText code) code Hw Hcode) as Hpanics.
  destruct (http_Error (W req) (StatusText code) code) as [w panic].
  simpl in Hpanics. by subst panic.
Qed.

Lemma query_backend_answers {D} `{Database D} (r : http_Request) (db : D)
  (qdata : list byte) :
  answers (query_backend (started r db) qdata) (fst (Query db qdata))
  /\ DB (fst (query_backend (started r db) qdata)) = snd (Query db qdata).
Proof.
  unfold query_backend, answers, status, started. cbn [DB W].
  destruct (Query db qdata) as [[[rdata httpStatus] [e|]] db']; cbn [fst snd set_DB].
  - split; [|by rewrite fail_fst]. split.
    + intros Hrange. apply validStatus_range in Hrange.
      rewrite fail_valid by done. split; [error_status | done].
    + intros Hrange. apply fail_invalid; [done|].
      destruct (validStatus httpStatus) eqn:Hvalid; [|done].
      by apply validStatus_range in Hvalid.
  - split; [|done]. unfold Write, WriteHeader. cbn. done.
Qed.




(** ** The resolver proxy *)

Section ProxyFacts.

Context {Msg E : Type} `{Exchanger Msg E}.
Variable Unpack : list byte -> Msg + error.
Variable Pack : Msg -> list byte + error.
Variable ClientConfigFromFile : string -> ClientConfig + error.
Variable new_dns_Client : E.

(** C6. For every ProxyBackend and every input: [Query] returns
    (nil, 400, error) when the bytes fail to unpack; (nil, 500, error)
    when they unpack but the exchange with the upstream server fails;
    (nil, 500, error) when the exchange succeeds but packing the reply
    fails; (replyBytes, 200, nil) when all three steps succeed. *)
Theorem ProxyBackend_Query_results (pb : ProxyBackend E) (qdata : list byte) :
  let result := fst (ProxyBackend_Query Unpack Pack pb qdata) in
  (forall err, Unpack qdata = inr err ->
               result = Returns (None, 400, Some err))
  /\ (forall m server err c,
         Unpack qdata = inl m ->
         elems (Servers pb) !! 0%nat = Some server ->
         Exchange (pbExchanger pb) m (JoinHostPort server (Port pb)) = (inr err, c) ->
         result = Returns (None, 500, Some err))
  /\ (forall m server r rtt c err,
         Unpack qdata = inl m ->
         elems (Servers pb) !! 0%nat = Some server ->
         Exchange (pbExchanger pb) m (JoinHostPort server (Port pb))
         = (inl (r, rtt), c) ->
         Pack r = inr err ->
         result = Returns (None, 500, Some err))
  /\ (forall m server r rtt c rdata,
         Unpack qdata = inl m ->
         elems (Servers pb) !! 0%nat = Some server ->
         Exchange (pbExchanger pb) m (JoinHostPort server (Port pb))
         = (inl (r, rtt), c) ->
         Pack r = inl rdata ->
         result = Returns (Some rdata, 200, None)).
Proof.
  unfold ProxyBackend_Query. cbn zeta. split; [|split; [|split]].
  - intros err ->. done.
  - intros m server err c -> -> ->. done.
  - intros m server r rtt c err -> -> -> ->. done.
  - intros m server r rtt c rdata -> -> -> ->. done.
Qed.

(** C7, as the code has it. A call of [Query] whose bytes unpack, on a
    backend with at least one server, invokes the exchanger exactly once,
    with the message and the address made of [Servers[0]] and [Port],
    whatever the other servers are and whether or not the exchange fails.
    A call whose bytes do not unpack returns before the exchange and does
    not invoke it. No other server is contacted, nothing is retried. *)
Theorem ProxyBackend_Query_calls (pb : ProxyBackend (Traced Msg E)) (qdata : list byte) :
  calls (pbExchanger (snd (ProxyBackend_Query Unpack Pack pb qdata)))
  = calls (pbExchanger pb)
    ++ match Unpack qdata, elems (Servers pb) with
       | inl m, server :: _ => [(m, JoinHostPort server (Port pb))]
       | _, _ => []
       end.
Proof.
  unfold ProxyBackend_Query.
  destruct (Unpack qdata) as [m|err]; [|by rewrite app_nil_r].
  destruct (elems (Servers pb)) as [|server servers]; [by rewrite app_nil_r|].
  cbn [lookup list_lookup]. unfold Exchange at 1, Traced_Exchanger.
  destruct (Exchange (inner (pbExchanger pb)) m (JoinHostPort server (Port pb)))
    as [[[r rtt]|err] c]; [|done].
  by destruct (Pack r).
Qed.

(** C8, as the code has it. [NewProxy] reads the resolver configuration
    only when [servers] is nil, from [resolvconf] or, when that is empty,
    from /etc/resolv.conf: a failure to read it is returned as the error,
    with no backend, and otherwise the backend has the servers of the
    file. A list that is not nil, empty or not, is kept as it is. An
    empty port becomes "53" and a nil exchanger the standard client. *)
Theorem NewProxy_result (servers : slice string) (port resolvconf : string)
  (exchanger : option E) :
  let path := if String.eqb resolvconf EmptyString then "/etc/resolv.conf" else resolvconf in
  let made := NewProxy ClientConfigFromFile new_dns_Client servers port resolvconf
                       exchanger in
  (forall err, servers = None -> ClientConfigFromFile path = inr err ->
               made = inr err)
  /\ (forall config, servers = None -> ClientConfigFromFile path = inl config ->
                     exists pb, made = inl pb /\ Servers pb = cc_Servers config)
  /\ (forall l, servers = Some l -> exists pb, made = inl pb /\ Servers pb = Some l)
  /\ (forall pb, made = inl pb ->
                 Port pb = (if String.eqb port EmptyString then "53" else port)
                 /\ pbExchanger pb = default new_dns_Client exchanger).
Proof.
  unfold NewProxy. cbn zeta. split; [|split; [|split]].
  - intros err -> ->. done.
  - intros config -> ->. eexists. done.
  - intros l ->. eexists. done.
  - intros pb Hmade.
    destruct servers as [l|];
      [|destruct (ClientConfigFromFile
                    (if String.eqb resolvconf EmptyString then "/etc/resolv.conf"
                     else resolvconf)) as [config|err]; [|done]];
      injection Hmade as <-; by destruct exchanger.
Qed.

End ProxyFacts.

Lemma ProxyBackend_Query_results_witness :
  fst (ProxyBackend_Query shortUnpack strictPack
         (proxy_of ["127.0.0.1"] (inl (header12, 0))) [x00])
  = Returns (None, 400, Some (errorString "dns: overflow unpacking uint16"))
  /\ fst (ProxyBackend_Query shortUnpack strictPack
            (proxy_of ["127.0.0.1"] (inr (errorString "i/o timeout"))) header12)
     = Returns (None, 500, Some (errorString "i/o timeout"))
  /\ fst (ProxyBackend_Query shortUnpack strictPack
            (proxy_of ["127.0.0.1"] (inl ([x00], 0))) header12)
     = Returns (None, 500, Some (errorString "dns: bad rdata"))
  /\ fst (ProxyBackend_Query shortUnpack strictPack
            (proxy_of ["127.0.0.1"] (inl (header12, 0))) header12)
     = Returns (Some header12, 200, None).
Proof.
  split; [|split; [|split]].
  - destruct (ProxyBackend_Query_results shortUnpack strictPack
                (proxy_of ["127.0.0.1"] (inl (header12, 0))) [x00]) as (Hunpack & _).
    apply Hunpack. reflexivity.
  - destruct (ProxyBackend_Query_results shortUnpack strictPack
                (proxy_of ["127.0.0.1"] (inr (errorString "i/o timeout"))) header12)
      as (_ & Hexchange & _).
    apply (Hexchange header12 "127.0.0.1" _
                     (mkFixed (inr (errorString "i/o timeout")))); reflexivity.
  - destruct (ProxyBackend_Query_results shortUnpack strictPack
                (proxy_of ["127.0.0.1"] (inl ([x00], 0))) header12)
      as (_ & _ & Hpack & _).
    apply (Hpack header12 "127.0.0.1" [x00] 0 (mkFixed (inl ([x00], 0))));
      reflexivity.
  - destruct (ProxyBackend_Query_results shortUnpack strictPack
                (proxy_of ["127.0.0.1"] (inl (header12, 0))) header12)
      as (_ & _ & _ & Hok).
    apply (Hok header12 "127.0.0.1" header12 0 (mkFixed (inl (header12, 0))));
      reflexivity.
Defined.

(** C7, as stated, fails: a query that does not unpack is answered
    without any call of the exchanger. *)
Lemma no_exchange_when_unpack_fails :
  length (calls (pbExchanger (snd (ProxyBackend_Query shortUnpack strictPack
                                     (traced_proxy (inl (header12, 0))) [x00]))))
  <> 1%nat.
Proof. vm_compute. discriminate. Qed.

Example one_exchange_with_first_server :
  calls (pbExchanger (snd (ProxyBackend_Query shortUnpack strictPack
                             (traced_proxy (inr (errorString "i/o timeout"))) header12)))
  = [(header12, "127.0.0.1:53535")].
Proof. reflexivity. Qed.

(** C8, as stated, fails: an empty list of servers that is not nil is
    kept, the configuration file is not read, and the backend made has no
    server. *)
Lemma NewProxy_keeps_empty_servers :
  ~ (forall pb,
        NewProxy oneServerConfig (mkFixed (inl (header12, 0))) (Some []) EmptyString EmptyString None
        = inl pb ->
        elems (Servers pb) <> []).
Proof.
  intros Hnonempty.
  apply (Hnonempty (mkProxyBackend (Some []) "53" EmptyString (mkFixed (inl (header12, 0)))));
    reflexivity.
Qed.

Lemma NewProxy_result_witness :
  NewProxy oneServerConfig (mkFixed (inl (header12, 0))) None EmptyString "/nonexistent-resolv.conf"
           None
  = inr (errorString "open /nonexistent-resolv.conf: no such file or directory")
  /\ (exists pb,
         NewProxy oneServerConfig (mkFixed (inl (header12, 0))) None EmptyString EmptyString None = inl pb
         /\ Servers pb = Some ["192.0.2.53"])
  /\ (exists pb,
         NewProxy oneServerConfig (mkFixed (inl (header12, 0))) (Some ["127.0.0.1"])
                  "53535" EmptyString None = inl pb
         /\ Servers pb = Some ["127.0.0.1"])
  /\ (Port (proxy_of ["127.0.0.1"] (inl (header12, 0))) = "53535"
      /\ pbExchanger (proxy_of ["127.0.0.1"] (inl (header12, 0)))
         = mkFixed (inl (header12, 0))).
Proof.
  split; [|split; [|split]].
  - destruct (NewProxy_result oneServerConfig (mkFixed (inl (header12, 0)))
                None EmptyString "/nonexistent-resolv.conf" None) as (Hfail & _).
    apply Hfail; reflexivity.
  - destruct (NewProxy_result oneServerConfig (mkFixed (inl (header12, 0)))
                None EmptyString EmptyString None) as (_ & Hfile & _).
    apply (Hfile (mkClientConfig (Some ["192.0.2.53"]) None "53" 1 5 2)); reflexivity.
  - destruct (NewProxy_result oneServerConfig (mkFixed (inl (header12, 0)))
                (Some ["127.0.0.1"]) "53535" EmptyString None) as (_ & _ & Hkept & _).
    apply (Hkept ["127.0.0.1"]). reflexivity.
  - destruct (NewProxy_result oneServerConfig (mkFixed (inl (header12, 0)))
                (Some ["127.0.0.1"]) "53535" EmptyString None) as (_ & _ & _ & Hdefaults).
    apply (Hdefaults (proxy_of ["127.0.0.1"] (inl (header12, 0)))). reflexivity.
Defined.

(** ** GET and POST with the same query *)

(** The last step does not depend on the request, only on the response
    writer and the backend. *)
Lemma query_backend_started {D} `{Database D} (r1 r2 : http_Request) (db : D)
  (qdata : list byte) :
  let res1 := query_backend (started r1 db) qdata in
  let res2 := query_backend (started r2 db) qdata in
  W (fst res1) = W (fst res2) /\ DB (fst res1) = DB (fst res2) /\ snd res1 = snd res2.
Proof.
  unfold query_backend, started. cbn [DB W].
  destruct (Query db qdata) as [[[rdata httpStatus] [e|]] db']; [|done].
  unfold fail, set_DB. cbn [W R DB].
  by destruct (http_Error _ (StatusText httpStatus) httpStatus) as [w panic].
Qed.

Lemma Query_Recorded {D} `{Database D} (db : D) (seen : list (list byte))
  (qdata : list byte) :
  Query (mkRecorded db seen) qdata
  = (fst (Query db qdata), mkRecorded (snd (Query db qdata)) (seen ++ [qdata])).
Proof.
  unfold Query at 1. unfold Recorded_Database. cbn [backend received].
  by destruct (Query db qdata).
Qed.

Lemma query_backend_Recorded {D} `{Database D} (r : http_Request) (db : D)
  (qdata : list byte) :
  let res := query_backend (started r (mkRecorded db [])) qdata in
  received (DB (fst res)) = [qdata]
  /\ backend (DB (fst res)) = snd (Query db qdata)
  /\ answers res (fst (Query db qdata)).
Proof.
  cbn zeta.
  destruct (query_backend_answers r (mkRecorded db []) qdata) as [Hanswers ->].
  rewrite Query_Recorded in Hanswers. rewrite Query_Recorded. done.
Qed.

(** C9, as the code has it. For every non-empty query Q of at most 8192
    bytes and every backend, a GET request whose single 'dns' parameter is
    the unpadded base64url encoding of Q and a POST request with the DNS
    wire-format Content-Type, no 'dns' parameter and the bytes of Q as its
    body both hand exactly Q to the backend, once, and give the same
    response: that of the backend's outcome for Q. *)
Theorem GET_POST_same_outcome {D} `{Database D} (fuel : nat) (Q : list byte)
  (r_get r_post : http_Request) (db : D) :
  enough fuel ->
  Q <> [] ->
  Z.of_nat (length Q) <= 8192 ->
  values_of "dns" (RawQuery r_get) = [base64.EncodeToString Q] ->
  values_of "dns" (RawQuery r_post) = [] ->
  Header_Get "Content-Type" (ReqHeader r_post) = mime ->
  ReqBody r_post = mkScript Q EOF ->
  let get := GetRequest_Handle (mkRequest NewRecorder r_get (mkRecorded db [])) in
  exists post,
    PostRequest_Handle fuel (mkRequest NewRecorder r_post (mkRecorded db [])) = Some post
    /\ received (DB (fst get)) = [Q] /\ received (DB (fst post)) = [Q]
    /\ backend (DB (fst get)) = snd (Query db Q)
    /\ backend (DB (fst post)) = snd (Query db Q)
    /\ answers get (fst (Query db Q)) /\ answers post (fst (Query db Q))
    /\ Result (W (fst get)) = Result (W (fst post))
    /\ snd get = snd post.
Proof.
  intros Hfuel HQ Hsize Hget Hpost Hct Hbody get.
  assert (Hg : get = query_backend (started r_get (mkRecorded db [])) Q).
  { subst get. unfold GetRequest_Handle. cbn [R W set_W].
    rewrite URL_Query_lookup, Hget. req_simpl.
    pose proof (base64_facts.EncodeToString_nonempty Q HQ) as Hne.
    destruct (base64.EncodeToString Q) as [|c v] eqn:Henc; [done|]. req_simpl.
    rewrite <- Henc, base64_facts.DecodeString_EncodeToString. done. }
  exists (query_backend (started r_post (mkRecorded db [])) Q).
  split.
  - rewrite PostRequest_Handle_checked, ReadAll_MaxBytesReader by done.
    rewrite Hbody. cbn [pending final reported]. unfold maxBody.
    destruct (Z.leb_spec (Z.of_nat (length Q)) 8192); [|lia].
    by destruct Q.
  - rewrite Hg.
    destruct (query_backend_Recorded r_get db Q) as (Hr1 & Hb1 & Ha1).
    destruct (query_backend_Recorded r_post db Q) as (Hr2 & Hb2 & Ha2).
    destruct (query_backend_started r_get r_post (mkRecorded db []) Q)
      as (HW & _ & Herr).
    repeat split; try done. by rewrite HW.
Qed.

Example www_example_com_encoded :
  base64.EncodeToString www_example_com
  = "AAABAAABAAAAAAAAA3d3dwdleGFtcGxlA2NvbQAAAQAB".
Proof. reflexivity. Qed.

Lemma GET_POST_same_outcome_witness :
  enough (Z.to_nat 8193)
  /\ exists post,
      PostRequest_Handle (Z.to_nat 8193)
        (mkRequest NewRecorder (post_request [] mime www_example_com)
                   (mkRecorded Echo [])) = Some post
      /\ received (DB (fst post)) = [www_example_com]
      /\ Result (W (fst (GetRequest_Handle
                           (mkRequest NewRecorder
                              (get_request
                                 [("dns", "AAABAAABAAAAAAAAA3d3dwdleGFtcGxlA2NvbQAAAQAB")])
                              (mkRecorded Echo [])))))
         = Result (W (fst post)).
Proof.
  split; [exact enough_8193|].
  destruct (GET_POST_same_outcome (Z.to_nat 8193) www_example_com
              (get_request [("dns", "AAABAAABAAAAAAAAA3d3dwdleGFtcGxlA2NvbQAAAQAB")])
              (post_request [] mime www_example_com) Echo enough_8193)
    as (post & Hpost & _ & Hreceived & _ & _ & _ & _ & Hsame & _).
  - discriminate.
  - vm_compute. discriminate.
  - reflexivity.
  - reflexivity.
  - reflexivity.
  - reflexivity.
  - exists post. split; [exact Hpost|]. split; [exact Hreceived | exact Hsame].
Defined.

Example padded_query_length : Z.of_nat (length padded_query) = 8193.
Proof. vm_compute. reflexivity. Qed.

(** C9, as stated, fails for a query of 8193 bytes: sent by GET it
    reaches the backend, which answers (status 200); sent by POST it is
    refused for its size (status 413) and the backend is not asked. *)
Lemma GET_POST_differ_above_limit :
  (status (GetRequest_Handle
             (mkRequest NewRecorder
                (get_request [("dns", base64.EncodeToString padded_query)])
                (mkRecorded Echo [])))
   = 200
   /\ received (DB (fst (GetRequest_Handle
                           (mkRequest NewRecorder
                              (get_request [("dns", base64.EncodeToString padded_query)])
                              (mkRecorded Echo [])))))
      = [padded_query])
  /\ exists post,
      PostRequest_Handle (Z.to_nat 8193)
        (mkRequest NewRecorder (post_request [] mime padded_query) (mkRecorded Echo []))
      = Some post
      /\ status post = 413 /\ received (DB (fst post)) = [].
Proof.
  split.
  - split; vm_compute; reflexivity.
  - eexists. split; [vm_compute; reflexivity|]. split; vm_compute; reflexivity.
Qed.

(** ** Determinism of the handler *)

Section Deterministic.

Context {D : Type} `{Database D}.

(** The result of [Query] is a function of the query alone: it does not
    depend on the state of the backend. *)
Variable f : list byte -> slice byte * Z * option error.
Hypothesis Query_deterministic : forall (d : D) (qdata : list byte),
    fst (Query d qdata) = f qdata.

Lemma query_backend_deterministic (w : ResponseRecorder) (r : http_Request)
  (d1 d2 : D) (qdata : list byte) :
  W (fst (query_backend (mkRequest w r d1) qdata))
  = W (fst (query_backend (mkRequest w r d2) qdata))
  /\ snd (query_backend (mkRequest w r d1) qdata)
     = snd (query_backend (mkRequest w r d2) qdata).
Proof.
  unfold query_backend. cbn [DB W].
  pose proof (Query_deterministic d1 qdata) as H1.
  pose proof (Query_deterministic d2 qdata) as H2.
  destruct (Query d1 qdata) as [out1 d1'], (Query d2 qdata) as [out2 d2'].
  simpl in H1, H2. subst out1 out2.
  destruct (f qdata) as [[rdata httpStatus] [e|]]; [|done].
  unfold fail, set_DB. cbn [W R DB].
  by destruct (http_Error w (StatusText httpStatus) httpStatus) as [w' panic].
Qed.

Lemma fail_deterministic (w : ResponseRecorder) (r : http_Request) (d1 d2 : D)
  (code : Z) (err : error) :
  W (fst (fail (mkRequest w r d1) code err)) = W (fst (fail (mkRequest w r d2) code err))
  /\ snd (fail (mkRequest w r d1) code err) = snd (fail (mkRequest w r d2) code err).
Proof.
  unfold fail. cbn [W R DB].
  by destruct (http_Error w (StatusText code) code) as [w' panic].
Qed.

Lemma GetRequest_Handle_deterministic (w : ResponseRecorder) (r : http_Request)
  (d1 d2 : D) :
  W (fst (GetRequest_Handle (mkRequest w r d1)))
  = W (fst (GetRequest_Handle (mkRequest w r d2)))
  /\ snd (GetRequest_Handle (mkRequest w r d1))
     = snd (GetRequest_Handle (mkRequest w r d2)).
Proof.
  unfold GetRequest_Handle. cbn [R W set_W].
  destruct (URL_Query (RawQuery r) !! "dns") as [dns|];
    [|apply fail_deterministic].
  destruct (negb (Nat.eqb (length dns) 1)); [apply fail_deterministic|].
  destruct (Nat.eqb (String.length (nth 0 dns EmptyString)) 0);
    [apply fail_deterministic|].
  destruct (base64.DecodeString (nth 0 dns EmptyString)) as [qdata [e|]];
    [apply fail_deterministic|].
  apply query_backend_deterministic.
Qed.

Lemma PostRequest_Handle_deterministic (fuel : nat) (w : ResponseRecorder)
  (r : http_Request) (d1 d2 : D) :
  enough fuel ->
  exists res1 res2,
    PostRequest_Handle fuel (mkRequest w r d1) = Some res1
    /\ PostRequest_Handle fuel (mkRequest w r d2) = Some res2
    /\ W (fst res1) = W (fst res2) /\ snd res1 = snd res2.
Proof.
  intros Hfuel. unfold PostRequest_Handle. cbn [R W set_W].
  assert (Hfail : forall code err,
             exists res1 res2,
               Some (fail (mkRequest (W_Header_Set "Content-Type" mime w) r d1) code err)
               = Some res1
               /\ Some (fail (mkRequest (W_Header_Set "Content-Type" mime w) r d2)
                             code err) = Some res2
               /\ W (fst res1) = W (fst res2) /\ snd res1 = snd res2).
  { intros code err. eexists _, _. split; [done|]. split; [done|].
    apply fail_deterministic. }
  destruct (URL_Query (RawQuery r) !! "dns") as [dns|]; [apply Hfail|].
  destruct (negb (String.eqb (Header_Get "Content-Type" (ReqHeader r)) mime));
    [apply Hfail|].
  rewrite ReadAll_MaxBytesReader by done.
  destruct (Z.of_nat (length (pending (ReqBody r))) <=? maxBody).
  - destruct (reported (final (ReqBody r))) as [e|].
    + destruct (String.eqb (Error e) "http: request body too large"); apply Hfail.
    + destruct (Nat.eqb (length (pending (ReqBody r))) 0); [apply Hfail|].
      eexists _, _. split; [done|]. split; [done|].
      apply query_backend_deterministic.
  - destruct (String.eqb (Error errTooLarge) "http: request body too large");
      apply Hfail.
Qed.

(** C10. For every backend whose [Query] is a function of its input
    bytes, two runs of the handler returned by [HandleRequest] on the
    same request, whatever the states of the backend and of the logger
    at each run, end the same way (both return, or both panic with the
    same message) and produce the same response: the same status code,
    the same headers and the same body. *)
Theorem HandleRequest_deterministic (fuel : nat) (w : ResponseRecorder)
  (r : http_Request) (d1 d2 : D) (log1 log2 : option (list string)) :
  enough fuel ->
  exists w1 d1' log1' w2 d2' log2' panic,
    HandleRequest d1 log1 fuel w r = Some (w1, d1', log1', panic)
    /\ HandleRequest d2 log2 fuel w r = Some (w2, d2', log2', panic)
    /\ Result w1 = Result w2.
Proof.
  intros Hfuel. unfold HandleRequest.
  assert (Hsame : forall res1 res2 : Request D * ending,
             W (fst res1) = W (fst res2) -> snd res1 = snd res2 ->
             exists w1 d1' log1' w2 d2' log2' panic,
               match Some res1 with
               | None => None
               | Some (req, Panicked msg) => Some (W req, DB req, log1, Some msg)
               | Some (req, Returned err) =>
                   Some (W req, DB req,
                         match err with
                         | Some e => Printf log1 (RemoteAddr r +:+ " | " +:+ Error e)
                         | None =>
                             Printf log1 (RemoteAddr r +:+ " | successful "
                                          +:+ Method r +:+ " request")
                         end, None)
               end = Some (w1, d1', log1', panic)
               /\ match Some res2 with
                  | None => None
                  | Some (req, Panicked msg) => Some (W req, DB req, log2, Some msg)
                  | Some (req, Returned err) =>
                      Some (W req, DB req,
                            match err with
                            | Some e => Printf log2 (RemoteAddr r +:+ " | " +:+ Error e)
                            | None =>
                                Printf log2 (RemoteAddr r +:+ " | successful "
                                             +:+ Method r +:+ " request")
                            end, None)
                  end = Some (w2, d2', log2', panic)
               /\ Result w1 = Result w2).
  { intros [req1 end1] [req2 end2] HW Hend. simpl in HW, Hend. subst end2.
    destruct end1 as [err|msg]; eexists _, _, _, _, _, _, _;
      (split; [done|]); (split; [done|]); by rewrite HW. }
  destruct (String.eqb (Method r) MethodGet).
  - destruct (GetRequest_Handle_deterministic w r d1 d2) as [HW Hend].
    by apply Hsame.
  - destruct (String.eqb (Method r) MethodPost).
    + destruct (PostRequest_Handle_deterministic fuel w r d1 d2 Hfuel)
        as (res1 & res2 & -> & -> & HW & Hend).
      by apply Hsame.
    + destruct (fail_deterministic w r d1 d2 StatusMethodNotAllowed
                  (errorString ("HandleRequest: only " +:+ MethodGet +:+ " and "
                                +:+ MethodPost +:+ " methods are supported")))
        as [HW Hend].
      by apply Hsame.
Qed.

End Deterministic.

Lemma HandleRequest_deterministic_witness :
  enough (Z.to_nat 8193)
  /\ exists w1 d1' log1' w2 d2' log2' panic,
      HandleRequest (mkRecorded Echo []) None (Z.to_nat 8193) NewRecorder
                    (post_request [] mime www_example_com) = Some (w1, d1', log1', panic)
      /\ HandleRequest (mkRecorded Echo [[x00]]) (Some ["earlier line"]) (Z.to_nat 8193)
                       NewRecorder (post_request [] mime www_example_com)
         = Some (w2, d2', log2', panic)
      /\ Result w1 = Result w2.
Proof.
  split; [exact enough_8193|].
  apply (HandleRequest_deterministic (fun qdata => (Some qdata, StatusOK, None))).
  - intros [b seen] qdata. reflexivity.
  - exact enough_8193.
Defined.

(** ** The dispatcher *)

Lemma http_Error_failure_response (w : ResponseRecorder) (code : Z) :
  wroteHeader w = false -> snapHeader w = None -> Body w = [] ->
  validStatus code = true ->
  StatusCode (Result (fst (http_Error w (StatusText code) code))) = code
  /\ failure_response (fst (http_Error w (StatusText code) code)).
Proof.
  intros Hw Hsnap Hbody Hcode. unfold failure_response.
  rewrite contentType_http_Error by done.
  rewrite Result_http_Error by done. cbn [StatusCode RespBody RespHeader].
  rewrite Hbody. repeat split.
  unfold Header_Get, Header_Set. by rewrite lookup_insert_eq.
Qed.

Lemma PostRequest_Handle_total {D} `{Database D} (fuel : nat) (req : Request D) :
  enough fuel -> exists res, PostRequest_Handle fuel req = Some res.
Proof.
  intros Hfuel. unfold PostRequest_Handle.
  destruct (URL_Query (RawQuery (R (set_W req _))) !! "dns"); [by eexists|].
  destruct (negb (String.eqb _ mime)); [by eexists|].
  rewrite ReadAll_MaxBytesReader by done.
  destruct (_ <=? maxBody).
  - destruct (reported _) as [e|].
    + destruct (String.eqb (Error e) _); by eexists.
    + destruct (Nat.eqb _ 0); by eexists.
  - destruct (String.eqb (Error errTooLarge) _); by eexists.
Qed.

(** X1. A request whose method is neither GET nor POST is answered with
    status 405 and the body "Method Not Allowed" and a newline; the backend
    is not asked and is left as it was; the error written to the log names
    the two supported methods. *)
Theorem HandleRequest_unsupported_method {D} `{Database D} (db : D)
  (log : option (list string)) (fuel : nat) (r : http_Request) :
  Method r <> MethodGet -> Method r <> MethodPost ->
  exists w,
    HandleRequest db log fuel NewRecorder r
    = Some (w, db,
            Printf log (RemoteAddr r
                        +:+ " | HandleRequest: only GET and POST methods are supported"),
            None)
    /\ StatusCode (Result w) = 405
    /\ RespBody (Result w) = list_byte_of_string ("Method Not Allowed" +:+ newline)
    /\ failure_response w.
Proof.
  intros Hget Hpost. unfold HandleRequest.
  apply String.eqb_neq in Hget. apply String.eqb_neq in Hpost.
  rewrite Hget, Hpost. rewrite fail_valid by done. cbn [W DB set_W].
  destruct (http_Error_failure_response NewRecorder StatusMethodNotAllowed)
    as [Hcode Hfail]; [done..|].
  eexists. split; [reflexivity|]. split; [exact Hcode|]. split; [|exact Hfail].
  by rewrite Result_http_Error.
Qed.

Lemma HandleRequest_unsupported_method_witness :
  exists w,
    HandleRequest Echo (Some []) 0 NewRecorder
                  (mkHttpRequest "PUT" [] ∅ (mkScript [] EOF) "192.0.2.7:4711")
    = Some (w, Echo,
            Some ["192.0.2.7:4711 | HandleRequest: only GET and POST methods are supported"],
            None)
    /\ StatusCode (Result w) = 405
    /\ RespBody (Result w) = list_byte_of_string ("Method Not Allowed" +:+ newline)
    /\ failure_response w.
Proof.
  apply (HandleRequest_unsupported_method Echo (Some []) 0
           (mkHttpRequest "PUT" [] ∅ (mkScript [] EOF) "192.0.2.7:4711"));
    discriminate.
Defined.

(** X2. With a logger, a call of the handler returned by [HandleRequest]
    that returns adds exactly one line to the log, starting with the
    address of the caller; a call that panics (the backend gave an error
    with a status code that is not valid) adds none; without a logger
    nothing is logged. The response, the backend and the way the call ends
    are the same with and without a logger. *)
Theorem HandleRequest_log {D} `{Database D} (db : D) (lines : list string)
  (fuel : nat) (w0 : ResponseRecorder) (r : http_Request) :
  enough fuel ->
  (exists w db' rest,
      HandleRequest db (Some lines) fuel w0 r
      = Some (w, db', Some (lines ++ [RemoteAddr r +:+ " | " +:+ rest]), None)
      /\ HandleRequest db None fuel w0 r = Some (w, db', None, None))
  \/ (exists w db' msg,
         HandleRequest db (Some lines) fuel w0 r = Some (w, db', Some lines, Some msg)
         /\ HandleRequest db None fuel w0 r = Some (w, db', None, Some msg)).
Proof.
  intros Hfuel. unfold HandleRequest.
  assert (Hlog : forall res : Request D * ending,
             (exists w db' rest,
                 match Some res with
                 | None => None
                 | Some (req, Panicked msg) => Some (W req, DB req, Some lines, Some msg)
                 | Some (req, Returned err) =>
                     Some (W req, DB req,
                           match err with
                           | Some e => Printf (Some lines) (RemoteAddr r +:+ " | " +:+ Error e)
                           | None =>
                               Printf (Some lines)
                                      (RemoteAddr r +:+ " | successful "
                                       +:+ Method r +:+ " request")
                           end, None)
                 end
                 = Some (w, db', Some (lines ++ [RemoteAddr r +:+ " | " +:+ rest]), None)
                 /\ match Some res with
                    | None => None
                    | Some (req, Panicked msg) => Some (W req, DB req, None, Some msg)
                    | Some (req, Returned err) =>
                        Some (W req, DB req,
                              match err with
                              | Some e => Printf None (RemoteAddr r +:+ " | " +:+ Error e)
                              | None =>
                                  Printf None
                                         (RemoteAddr r +:+ " | successful "
                                          +:+ Method r +:+ " request")
                              end, None)
                    end = Some (w, db', None, None))
             \/ (exists w db' msg,
                    match Some res with
                    | None => None
                    | Some (req, Panicked msg) =>
                        Some (W req, DB req, Some lines, Some msg)
                    | Some (req, Returned err) =>
                        Some (W req, DB req,
                              match err with
                              | Some e =>
                                  Printf (Some lines) (RemoteAddr r +:+ " | " +:+ Error e)
                              | None =>
                                  Printf (Some lines)
                                         (RemoteAddr r +:+ " | successful "
                                          +:+ Method r +:+ " request")
                              end, None)
                    end = Some (w, db', Some lines, Some msg)
                    /\ match Some res with
                       | None => None
                       | Some (req, Panicked msg) => Some (W req, DB req, None, Some msg)
                       | Some (req, Returned err) =>
                           Some (W req, DB req,
                                 match err with
                                 | Some e =>
                                     Printf None (RemoteAddr r +:+ " | " +:+ Error e)
                                 | None =>
                                     Printf None
                                            (RemoteAddr r +:+ " | successful "
                                             +:+ Method r +:+ " request")
                                 end, None)
                       end = Some (w, db', None, Some msg))).
  { intros [req [[e|]|msg]].
    - left. eexists _, _, _. split; reflexivity.
    - left. eexists _, _, _. split; reflexivity.
    - right. eexists _, _, _. split; reflexivity. }
  destruct (String.eqb (Method r) MethodGet); [apply Hlog|].
  destruct (String.eqb (Method r) MethodPost); [|apply Hlog].
  destruct (PostRequest_Handle_total fuel (mkRequest w0 r db) Hfuel) as [res ->].
  apply Hlog.
Qed.

Lemma HandleRequest_log_witness :
  enough (Z.to_nat 8193)
  /\ ((exists w db' rest,
          HandleRequest Echo (Some ["earlier line"]) (Z.to_nat 8193) NewRecorder
                        (post_request [] mime www_example_com)
          = Some (w, db', Some (["earlier line"] ++ ["192.0.2.7:4711" +:+ " | " +:+ rest]),
                  None)
          /\ HandleRequest Echo None (Z.to_nat 8193) NewRecorder
                           (post_request [] mime www_example_com)
             = Some (w, db', None, None))
      \/ (exists w db' msg,
             HandleRequest Echo (Some ["earlier line"]) (Z.to_nat 8193) NewRecorder
                           (post_request [] mime www_example_com)
             = Some (w, db', Some ["earlier line"], Some msg)
             /\ HandleRequest Echo None (Z.to_nat 8193) NewRecorder
                              (post_request [] mime www_example_com)
                = Some (w, db', None, Some msg))).
Proof.
  split; [exact enough_8193|].
  exact (HandleRequest_log Echo ["earlier line"] (Z.to_nat 8193) NewRecorder
           (post_request [] mime www_example_com) enough_8193).
Defined.

Example log_of_a_valid_query :
  HandleRequest Echo (Some ["earlier line"]) (Z.to_nat 8193) NewRecorder
                (post_request [] mime www_example_com)
  = Some (Write www_example_com (W_Header_Set "Content-Type" mime NewRecorder), Echo,
          Some ["earlier line"; "192.0.2.7:4711 | successful POST request"], None).
Proof. vm_compute. reflexivity. Qed.

Example no_log_after_a_panic :
  HandleRequest (mkFailing 0) (Some ["earlier line"]) 0 NewRecorder
                (get_request [("dns", "AAAB")])
  = Some (W_Header_Set "X-Content-Type-Options" "nosniff"
            (W_Header_Set "Content-Type" "text/plain; charset=utf-8"
               (W_Header_Set "Content-Type" mime NewRecorder)),
          mkFailing 0, Some ["earlier line"], Some "invalid WriteHeader code 0").
Proof. vm_compute. reflexivity. Qed.

(** ** Failure responses *)

Lemma query_backend_failure {D} `{Database D} (r : http_Request) (db : D)
  (qdata : list byte) (e : error) :
  snd (query_backend (started r db) qdata) = Returned (Some e) ->
  failure_response (W (fst (query_backend (started r db) qdata))).
Proof.
  unfold query_backend, started. cbn [DB W].
  destruct (Query db qdata) as [[[rdata httpStatus] [e'|]] db']; [|done].
  destruct (validStatus httpStatus) eqn:Hvalid.
  - intros _. rewrite fail_valid by done. cbn [fst W set_W set_DB].
    by apply http_Error_failure_response.
  - rewrite fail_invalid by done. discriminate.
Qed.

Ltac failure_case :=
  req_simpl; try (intros; by apply http_Error_failure_response).

(** X3. Whenever the GET or the POST validator reports an error, whether
    its own or the backend's, the body of the response is the reason phrase
    of the response's status followed by a newline (only a newline for a
    status without a phrase), its Content-Type is text/plain; charset=utf-8
    and it carries X-Content-Type-Options: nosniff. *)
Theorem Handle_failure_response {D} `{Database D} (fuel : nat) (r : http_Request)
  (db : D) :
  enough fuel ->
  (forall e, snd (GetRequest_Handle (mkRequest NewRecorder r db)) = Returned (Some e) ->
             failure_response (W (fst (GetRequest_Handle (mkRequest NewRecorder r db)))))
  /\ exists res,
      PostRequest_Handle fuel (mkRequest NewRecorder r db) = Some res
      /\ (forall e, snd res = Returned (Some e) -> failure_response (W (fst res))).
Proof.
  intros Hfuel. split.
  - intros e. unfold GetRequest_Handle. cbn [R W set_W]. rewrite URL_Query_lookup.
    destruct (values_of "dns" (RawQuery r)) as [|v [|v' dns]]; failure_case.
    destruct v as [|c v]; failure_case.
    destruct (base64.DecodeString (String c v)) as [qdata [e'|]]; failure_case.
    apply (query_backend_failure r db).
  - unfold PostRequest_Handle. cbn [R W set_W]. rewrite URL_Query_lookup.
    destruct (values_of "dns" (RawQuery r)) as [|v dns].
    2: { eexists. split; [done|]. failure_case. }
    destruct (String.eqb (Header_Get "Content-Type" (ReqHeader r)) mime); cbn [negb].
    2: { eexists. split; [done|]. failure_case. }
    rewrite ReadAll_MaxBytesReader by done.
    destruct (Z.of_nat (length (pending (ReqBody r))) <=? maxBody).
    + destruct (reported (final (ReqBody r))) as [e|].
      * destruct (String.eqb (Error e) "http: request body too large");
          eexists; (split; [done|]); failure_case.
      * destruct (pending (ReqBody r)) as [|b body]; req_simpl.
        -- eexists. split; [done|]. failure_case.
        -- eexists. split; [done|]. intros e. apply (query_backend_failure r db).
    + cbn [Error errTooLarge]. eexists. split; [done|]. failure_case.
Qed.

Lemma Handle_failure_response_witness :
  enough (Z.to_nat 8193)
  /\ failure_response
       (W (fst (GetRequest_Handle
                  (mkRequest NewRecorder (get_request [("dns", "AAAB")]) (mkFailing 599)))))
  /\ exists res,
      PostRequest_Handle (Z.to_nat 8193)
        (mkRequest NewRecorder (post_request [] mime (zeros 8193)) (mkFailing 599))
      = Some res
      /\ (forall e, snd res = Returned (Some e) -> failure_response (W (fst res))).
Proof.
  split; [exact enough_8193|].
  destruct (Handle_failure_response (Z.to_nat 8193) (get_request [("dns", "AAAB")])
              (mkFailing 599) enough_8193) as [Hget _].
  destruct (Handle_failure_response (Z.to_nat 8193)
              (post_request [] mime (zeros 8193)) (mkFailing 599) enough_8193)
    as [_ Hpost].
  split; [|exact Hpost].
  apply (Hget (errorString "backend failure")). reflexivity.
Defined.

Example failure_body_without_phrase :
  RespBody (Result (W (fst (GetRequest_Handle
                              (mkRequest NewRecorder (get_request [("dns", "AAAB")])
                                         (mkFailing 599))))))
  = list_byte_of_string newline.
Proof. reflexivity. Qed.

(** ** What reaches the backend *)

Lemma GetRequest_Handle_decoded {D} `{Database D} (r : http_Request) (db : D)
  (v : string) (qdata : list byte) :
  values_of "dns" (RawQuery r) = [v] -> v <> EmptyString ->
  base64.DecodeString v = (qdata, None) ->
  GetRequest_Handle (mkRequest NewRecorder r db) = query_backend (started r db) qdata.
Proof.
  intros Hdns Hv Hdec. unfold GetRequest_Handle. cbn [R W set_W].
  rewrite URL_Query_lookup, Hdns. req_simpl.
  destruct v as [|c v]; [done|]. req_simpl. by rewrite Hdec.
Qed.




(** ** The 'dns' parameter of a GET request *)



Lemma decode_newlines (src : list ascii) :
  forall (si : Z) (dst : list byte),
    Forall (fun c => base64.is_newline c = true) src ->
    base64.decode src si [] dst = (dst, None).
Proof.
  induction src as [|c src IH]; intros si dst Hsrc; [done|].
  apply Forall_cons in Hsrc as [Hc Hsrc]. cbn [base64.decode].
  assert (Hmap : base64.decodeMap c = None).
  { unfold base64.is_newline in Hc. apply orb_true_iff in Hc.
    destruct Hc as [Hc|Hc]; apply Ascii.eqb_eq in Hc; by subst c. }
  rewrite Hmap, Hc. by apply IH.
Qed.

(** X7. The GET validator checks that the 'dns' parameter is not empty,
    not that the decoded query is: a parameter made only of line feeds and
    carriage returns, which the decoder skips, decodes to no byte at all,
    and the backend is asked with an empty query. *)
Theorem GetRequest_Handle_empty_query {D} `{Database D} (r : http_Request) (db : D)
  (v : string) :
  v <> EmptyString ->
  Forall (fun c => base64.is_newline c = true) (list_ascii_of_string v) ->
  values_of "dns" (RawQuery r) = [v] ->
  let res := GetRequest_Handle (mkRequest NewRecorder r (mkRecorded db [])) in
  received (DB (fst res)) = [[]]
  /\ answers res (fst (Query db [])).
Proof.
  intros Hv Hnl Hdns. cbn zeta.
  rewrite (GetRequest_Handle_decoded r (mkRecorded db []) v []).
  - destruct (query_backend_Recorded r db []) as (Hreceived & _ & Hanswers). done.
  - done.
  - done.
  - unfold base64.DecodeString. by apply decode_newlines.
Qed.

Lemma GetRequest_Handle_empty_query_witness :
  received (DB (fst (GetRequest_Handle
                       (mkRequest NewRecorder (get_request [("dns", newline)])
                                  (mkRecorded Echo [])))))
  = [[]]
  /\ answers (GetRequest_Handle
                (mkRequest NewRecorder (get_request [("dns", newline)])
                           (mkRecorded Echo [])))
             (Some [], 200, None).
Proof.
  assert (Hv : newline <> EmptyString) by discriminate.
  assert (Hnl : Forall (fun c => base64.is_newline c = true)
                       (list_ascii_of_string newline)) by (repeat constructor).
  exact (GetRequest_Handle_empty_query (get_request [("dns", newline)]) Echo newline
           Hv Hnl eq_refl).
Defined.

Lemma decode_corrupt (src : list ascii) :
  forall (si : Z) (dbuf : list Z) (dst : list byte),
    Exists corrupt src ->
    exists pos, snd (base64.decode src si dbuf dst) = Some (CorruptInputError pos).
Proof.
  induction src as [|c src IH]; intros si dbuf dst Hsrc.
  - by apply Exists_nil in Hsrc.
  - cbn [base64.decode].
    destruct (base64.decodeMap c) as [out|] eqn:Hmap.
    + apply Exists_cons in Hsrc as [[Hc _]|Hsrc]; [congruence|].
      destruct dbuf as [|d0 [|d1 [|d2 [|d3 dbuf]]]]; by apply IH.
    + destruct (base64.is_newline c) eqn:Hnl.
      * apply Exists_cons in Hsrc as [[_ Hc]|Hsrc]; [congruence|]. by apply IH.
      * by eexists.
Qed.

(** X8. A single 'dns' parameter that holds a byte outside the base64url
    alphabet other than a line feed or carriage return (a padding
    character "=", or the "+" and "/" of standard base64) is refused: the
    status is 400, the error is the decoder's corrupt-input error, and the
    backend is not asked. *)
Theorem GetRequest_Handle_corrupt {D} `{Database D} (r : http_Request) (db : D)
  (v : string) :
  values_of "dns" (RawQuery r) = [v] ->
  Exists corrupt (list_ascii_of_string v) ->
  let res := GetRequest_Handle (mkRequest NewRecorder r (mkRecorded db [])) in
  status res = 400
  /\ (exists pos, snd res = Returned (Some (CorruptInputError pos)))
  /\ received (DB (fst res)) = [] /\ backend (DB (fst res)) = db.
Proof.
  intros Hdns Hcorrupt. cbn zeta.
  destruct (decode_corrupt _ 0 [] [] Hcorrupt) as [pos Hpos].
  unfold GetRequest_Handle, status. cbn [R W set_W].
  rewrite URL_Query_lookup, Hdns. req_simpl.
  destruct v as [|c v]; [by apply Exists_nil in Hcorrupt|]. req_simpl.
  unfold base64.DecodeString.
  destruct (base64.decode (list_ascii_of_string (String c v)) 0 [] [])
    as [qdata [e|]]; [|done].
  simpl in Hpos. injection Hpos as ->. req_simpl.
  split; [error_status|]. split; [by eexists | done].
Qed.

Lemma GetRequest_Handle_corrupt_witness :
  status (GetRequest_Handle
            (mkRequest NewRecorder (get_request [("dns", "AAAB=")]) (mkRecorded Echo [])))
  = 400
  /\ (exists pos,
         snd (GetRequest_Handle
                (mkRequest NewRecorder (get_request [("dns", "AAAB=")])
                           (mkRecorded Echo [])))
         = Returned (Some (CorruptInputError pos)))
  /\ received (DB (fst (GetRequest_Handle
                          (mkRequest NewRecorder (get_request [("dns", "AAAB=")])
                                     (mkRecorded Echo [])))))
     = []
  /\ backend (DB (fst (GetRequest_Handle
                         (mkRequest NewRecorder (get_request [("dns", "AAAB=")])
                                    (mkRecorded Echo [])))))
     = Echo.
Proof.
  apply (GetRequest_Handle_corrupt (get_request [("dns", "AAAB=")]) Echo "AAAB=").
  - reflexivity.
  - do 4 apply Exists_cons_tl. apply Exists_cons_hd. split; reflexivity.
Defined.

(** X9. The GET validator reads nothing of the request but the query
    string: two requests with the same query string, whatever their
    headers, bodies, methods and callers, get the same response, report the
    same error and leave the backend in the same state. *)
Theorem GetRequest_Handle_reads_query_only {D} `{Database D} (w : ResponseRecorder)
  (r1 r2 : http_Request) (db : D) :
  RawQuery r1 = RawQuery r2 ->
  W (fst (GetRequest_Handle (mkRequest w r1 db)))
  = W (fst (GetRequest_Handle (mkRequest w r2 db)))
  /\ DB (fst (GetRequest_Handle (mkRequest w r1 db)))
     = DB (fst (GetRequest_Handle (mkRequest w r2 db)))
  /\ snd (GetRequest_Handle (mkRequest w r1 db))
     = snd (GetRequest_Handle (mkRequest w r2 db)).
Proof.
  intros Hquery. unfold GetRequest_Handle. cbn [R W set_W]. rewrite Hquery.
  assert (Hfail : forall (d : D) (code : Z) (err : error),
             W (fst (fail (mkRequest (W_Header_Set "Content-Type" mime w) r1 d) code err))
             = W (fst (fail (mkRequest (W_Header_Set "Content-Type" mime w) r2 d)
                            code err))
             /\ DB (fst (fail (mkRequest (W_Header_Set "Content-Type" mime w) r1 d)
                              code err))
                = DB (fst (fail (mkRequest (W_Header_Set "Content-Type" mime w) r2 d)
                                code err))
             /\ snd (fail (mkRequest (W_Header_Set "Content-Type" mime w) r1 d) code err)
                = snd (fail (mkRequest (W_Header_Set "Content-Type" mime w) r2 d)
                           code err)).
  { intros d code err. unfold fail. cbn [W R DB].
    by destruct (http_Error _ (StatusText code) code) as [w' panic]. }
  destruct (URL_Query (RawQuery r2) !! "dns") as [dns|]; [|apply Hfail].
  destruct (negb (Nat.eqb (length dns) 1)); [apply Hfail|].
  destruct (Nat.eqb (String.length (nth 0 dns EmptyString)) 0); [apply Hfail|].
  destruct (base64.DecodeString (nth 0 dns EmptyString)) as [qdata [e|]];
    [apply Hfail|].
  unfold query_backend, set_W, set_DB. cbn [DB W R].
  destruct (Query db qdata) as [[[rdata httpStatus] [e|]] db']; [apply Hfail | done].
Qed.

Lemma GetRequest_Handle_reads_query_only_witness :
  W (fst (GetRequest_Handle
            (mkRequest NewRecorder (get_request [("dns", "AAAB")]) Echo)))
  = W (fst (GetRequest_Handle
              (mkRequest NewRecorder (post_request [("dns", "AAAB")] "text/plain" [x00])
                         Echo))).
Proof.
  apply (GetRequest_Handle_reads_query_only NewRecorder
           (get_request [("dns", "AAAB")])
           (post_request [("dns", "AAAB")] "text/plain" [x00]) Echo).
  reflexivity.
Defined.

(** ** The resolver proxy: construction and query together *)

Section ProxyComposed.

Context {Msg E : Type} `{Exchanger Msg E}.
Variable Unpack : list byte -> Msg + error.
Variable Pack : Msg -> list byte + error.
Variable ClientConfigFromFile : string -> ClientConfig + error.

(** X10. A backend without servers, which [NewProxy] makes from an empty
    list that is not nil, cannot answer a query that unpacks: [Query] fails
    on [Servers[0]] with an index out of range before any exchange, and the
    exchanger is not invoked. *)
Theorem ProxyBackend_Query_no_server (new_dns_Client : E) (port resolvconf : string)
  (exchanger : option E) (qdata : list byte) (m : Msg) :
  Unpack qdata = inl m ->
  (forall pb : ProxyBackend E,
      elems (Servers pb) = [] ->
      ProxyBackend_Query Unpack Pack pb qdata
      = (Panics "runtime error: index out of range", pb))
  /\ exists pb,
      NewProxy ClientConfigFromFile new_dns_Client (Some []) port resolvconf exchanger
      = inl pb
      /\ ProxyBackend_Query Unpack Pack pb qdata
         = (Panics "runtime error: index out of range", pb).
Proof.
  intros Hunpack.
  assert (Hgeneral : forall pb : ProxyBackend E,
             elems (Servers pb) = [] ->
             ProxyBackend_Query Unpack Pack pb qdata
             = (Panics "runtime error: index out of range", pb)).
  { intros pb Hservers. unfold ProxyBackend_Query. by rewrite Hunpack, Hservers. }
  split; [exact Hgeneral|].
  unfold NewProxy. eexists. split; [reflexivity|]. by apply Hgeneral.
Qed.

(** X11. A backend made from the resolver configuration file sends a
    query that unpacks to the first server of the file, once, at the port
    given to [NewProxy], or 53 when none is given: the port of the file is
    not used. *)
Theorem NewProxy_from_file_Query_address (new_dns_Client : Traced Msg E)
  (port resolvconf : string) (exchanger : option (Traced Msg E))
  (config : ClientConfig) (server : string) (rest : list string)
  (qdata : list byte) (m : Msg) :
  ClientConfigFromFile
    (if String.eqb resolvconf EmptyString then "/etc/resolv.conf" else resolvconf)
  = inl config ->
  elems (cc_Servers config) = server :: rest ->
  Unpack qdata = inl m ->
  exists pb,
    NewProxy ClientConfigFromFile new_dns_Client None port resolvconf exchanger = inl pb
    /\ calls (pbExchanger (snd (ProxyBackend_Query Unpack Pack pb qdata)))
       = calls (default new_dns_Client exchanger)
         ++ [(m, JoinHostPort server (if String.eqb port EmptyString then "53" else port))].
Proof.
  intros Hfile Hservers Hunpack. unfold NewProxy. rewrite Hfile.
  eexists. split; [reflexivity|].
  unfold ProxyBackend_Query. rewrite Hunpack. cbn [Servers Port pbExchanger ResolvConf].
  rewrite Hservers. cbn [lookup list_lookup].
  unfold Exchange at 1, Traced_Exchanger.
  assert (Hexchanger : match exchanger with
                       | Some e => e
                       | None => new_dns_Client
                       end = default new_dns_Client exchanger)
    by (by destruct exchanger).
  rewrite Hexchanger.
  destruct (Exchange (inner (default new_dns_Client exchanger)) m
                     (JoinHostPort server
                        (if String.eqb port EmptyString then "53" else port)))
    as [[[r rtt]|err] c]; [|done].
  by destruct (Pack r).
Qed.

(** X12. The earlier revision of the proxy and the present one given no
    exchanger agree: [NewProxy] fails with the same error or makes backends
    with the same servers, port and (empty) configuration path, and on
    these backends [Query] returns the same for every query. *)
Theorem previous_revision_agrees (new_dns_Client : E) (servers : slice string)
  (port resolvconf : string) :
  match previous.NewProxy ClientConfigFromFile servers port resolvconf,
        NewProxy ClientConfigFromFile new_dns_Client servers port resolvconf None with
  | inl pb0, inl pb =>
      previous.Servers pb0 = Servers pb /\ previous.Port pb0 = Port pb
      /\ previous.ResolvConf pb0 = ResolvConf pb
      /\ forall qdata,
          previous.ProxyBackend_Query Unpack Pack new_dns_Client pb0 qdata
          = fst (ProxyBackend_Query Unpack Pack pb qdata)
  | inr err0, inr err => err0 = err
  | _, _ => False
  end.
Proof.
  unfold previous.NewProxy, NewProxy.
  set (path := if String.eqb resolvconf EmptyString then "/etc/resolv.conf"
               else resolvconf).
  assert (Hquery : forall l : slice string, forall qdata,
             previous.ProxyBackend_Query Unpack Pack new_dns_Client
               (previous.mkProxyBackend l
                  (if String.eqb port EmptyString then "53" else port) EmptyString)
               qdata
             = fst (ProxyBackend_Query Unpack Pack
                      (mkProxyBackend l
                         (if String.eqb port EmptyString then "53" else port)
                         EmptyString new_dns_Client)
                      qdata)).
  { intros l qdata. unfold previous.ProxyBackend_Query, ProxyBackend_Query.
    cbn [previous.Servers previous.Port Servers Port pbExchanger].
    destruct (Unpack qdata) as [m|err]; [|done].
    destruct (elems l !! 0%nat) as [server|]; [|done].
    destruct (Exchange new_dns_Client m _) as [[[r rtt]|err] c]; [|done].
    by destruct (Pack r). }
  destruct servers as [l|].
  - repeat split. apply Hquery.
  - destruct (ClientConfigFromFile path) as [config|err]; [|done].
    repeat split. apply Hquery.
Qed.

End ProxyComposed.

Lemma ProxyBackend_Query_no_server_witness :
  exists pb,
    NewProxy oneServerConfig (mkFixed (inl (header12, 0))) (Some []) EmptyString
             EmptyString None = inl pb
    /\ ProxyBackend_Query shortUnpack strictPack pb header12
       = (Panics "runtime error: index out of range", pb).
Proof.
  destruct (ProxyBackend_Query_no_server shortUnpack strictPack oneServerConfig
              (mkFixed (inl (header12, 0))) EmptyString EmptyString None
              header12 header12 eq_refl) as [_ Hmade].
  exact Hmade.
Defined.

Lemma NewProxy_from_file_Query_address_witness :
  exists pb,
    NewProxy twoServerConfig (mkTraced (mkFixed (inl (header12, 0))) []) None
             EmptyString EmptyString None = inl pb
    /\ calls (pbExchanger (snd (ProxyBackend_Query shortUnpack strictPack pb header12)))
       = [] ++ [(header12, "192.0.2.53:53")].
Proof.
  exact (NewProxy_from_file_Query_address shortUnpack strictPack twoServerConfig
           (mkTraced (mkFixed (inl (header12, 0))) []) EmptyString EmptyString None
           (mkClientConfig (Some ["192.0.2.53"; "192.0.2.54"]) None "5353" 1 5 2)
           "192.0.2.53" ["192.0.2.54"] header12 header12 eq_refl eq_refl eq_refl).
Defined.
